(** * A shallow embedding of [rigol.py] (pyrigol)

    The module drives a Rigol DP832 power supply and a Rigol DS1054Z
    oscilloscope over pyvisa.  The embedding covers:
    - the Python values and string operations the methods use
      ([str.strip], slicing, [str.format], [float()]);
    - the transport as an event trace: every [device.write], every
      [time.sleep] and every query with its reply is recorded, and the
      instrument's replies come from an arbitrary function of the trace;
    - [BaseVisaDevice.write] / [reset], the methods of [RigolDP832] and of
      [Rigol1054Z], and the waveform token converter [conv_string].

    Output written with [print] is not modelled. *)

From Stdlib Require Import ZArith String Ascii List Bool Lia.
Import ListNotations.
Open Scope string_scope.
Open Scope list_scope.
Open Scope Z_scope.

(* ------------------------------------------------------------------ *)
(** ** Python values *)

(** A Python [float] is kept as the exact decimal it was written as:
    [FNum neg m e] is (-1)^neg * m * 10^e.  Rounding to the nearest
    double is not modelled; the properties below only look at which
    tokens parse and in which order. *)
Inductive pyfloat :=
| FNum (neg : bool) (m : Z) (e : Z)
| FInf (neg : bool)
| FNaN.

Inductive pyval :=
| PNone
| PInt (z : Z)
| PFloat (f : pyfloat)
| PStr (s : string).

(** Python's truth value of an object. *)
Definition py_truthy (v : pyval) : bool :=
  match v with
  | PNone => false
  | PInt z => negb (z =? 0)
  | PFloat (FNum _ m _) => negb (m =? 0)
  | PFloat _ => true
  | PStr s => negb (String.eqb s "")
  end.

(** Exceptions the methods can raise.  [NotModelled] stands for
    [str.format] features ([!conv], [:spec], [[index]]) that no format
    string of the source uses. *)
Inductive exn :=
| RuntimeError (msg : string)
| KeyError (key : string)
| IndexError (msg : string)
| AttributeError (attr : string)
| ValueError (msg : string)
| TypeError (msg : string)
| NotModelled.

(* ------------------------------------------------------------------ *)
(** ** Characters and strings *)

(** A character of a model string is one code point below 256 (Latin-1),
    the range pyvisa's ASCII replies and the methods' literals fall in. *)

(** [c.isspace()], the characters [str.strip()] removes. *)
Definition is_space (c : ascii) : bool :=
  let n := nat_of_ascii c in
  ((9 <=? n)%nat && (n <=? 13)%nat) || ((28 <=? n)%nat && (n <=? 32)%nat) ||
  (n =? 133)%nat || (n =? 160)%nat.

(** The whitespace [float()] skips around a literal: that of [isspace]
    without the separators U+001C to U+001F. *)
Definition is_float_space (c : ascii) : bool :=
  let n := nat_of_ascii c in
  ((9 <=? n)%nat && (n <=? 13)%nat) || (n =? 32)%nat || (n =? 133)%nat || (n =? 160)%nat.

Definition is_digit (c : ascii) : bool :=
  let n := nat_of_ascii c in (48 <=? n)%nat && (n <=? 57)%nat.

Definition digit_val (c : ascii) : Z := Z.of_nat (nat_of_ascii c) - 48.

(** [c.lower()]: A-Z and the Latin-1 capitals U+00C0 to U+00DE (but the
    sign U+00D7). *)
Definition to_lower (c : ascii) : ascii :=
  let n := nat_of_ascii c in
  if ((65 <=? n)%nat && (n <=? 90)%nat) ||
     ((192 <=? n)%nat && (n <=? 222)%nat && negb (n =? 215)%nat)
  then ascii_of_nat (n + 32) else c.

(** [c.upper()]: a-z and U+00E0 to U+00FE (but the sign U+00F7) move
    down by 32, U+00DF becomes "SS"; U+00B5 and U+00FF have capitals past
    U+00FF, which a model string cannot hold: [None]. *)
Definition to_upper (c : ascii) : option (list ascii) :=
  let n := nat_of_ascii c in
  if ((97 <=? n)%nat && (n <=? 122)%nat) ||
     ((224 <=? n)%nat && (n <=? 254)%nat && negb (n =? 247)%nat)
  then Some [ascii_of_nat (n - 32)]
  else if (n =? 223)%nat then Some ["S"%char; "S"%char]
  else if (n =? 181)%nat || (n =? 255)%nat then None
  else Some [c].

Fixpoint drop_space (sp : ascii -> bool) (l : list ascii) : list ascii :=
  match l with
  | c :: l' => if sp c then drop_space sp l' else l
  | [] => []
  end.

Definition strip_by (sp : ascii -> bool) (s : string) : string :=
  string_of_list_ascii (rev (drop_space sp (rev (drop_space sp (list_ascii_of_string s))))).

(** [s.strip()]. *)
Definition py_strip (s : string) : string := strip_by is_space s.

(** The stripping [float()] does before it parses. *)
Definition float_strip (s : string) : string := strip_by is_float_space s.

Definition py_lower (s : string) : string :=
  string_of_list_ascii (map to_lower (list_ascii_of_string s)).

Fixpoint upper_go (l : list ascii) : option (list ascii) :=
  match l with
  | [] => Some []
  | c :: l' =>
      match to_upper c, upper_go l' with
      | Some u, Some r => Some (u ++ r)
      | _, _ => None
      end
  end.

(** [s.upper()], or [None] when the result leaves Latin-1. *)
Definition py_upper (s : string) : option string :=
  option_map string_of_list_ascii (upper_go (list_ascii_of_string s)).

(** [s[n:]] for a non-negative [n]: empty when [n] is past the end. *)
Definition py_slice_from (n : nat) (s : string) : string :=
  string_of_list_ascii (skipn n (list_ascii_of_string s)).

(** [s[0]] raises [IndexError] on the empty string. *)
Definition py_index0 (s : string) : exn + string :=
  match s with
  | EmptyString => inl (IndexError "string index out of range")
  | String c _ => inr (String c EmptyString)
  end.

(** [s.replace(old, new)]. *)
Fixpoint replace_go (fuel : nat) (old new : list ascii) (l : list ascii) : list ascii :=
  match fuel with
  | O => l
  | S fuel' =>
      match l with
      | [] => []
      | c :: l' =>
          if (0 <? length old)%nat &&
             String.eqb (string_of_list_ascii (firstn (length old) l)) (string_of_list_ascii old)
          then new ++ replace_go fuel' old new (skipn (length old) l)
          else c :: replace_go fuel' old new l'
      end
  end.

Definition py_str_replace (s old new : string) : string :=
  let l := list_ascii_of_string s in
  string_of_list_ascii
    (replace_go (length l) (list_ascii_of_string old) (list_ascii_of_string new) l).

(** [s.split(sep)] for a one-character separator. *)
Fixpoint split_go (sep : ascii) (cur : list ascii) (l : list ascii) : list string :=
  match l with
  | [] => [string_of_list_ascii (rev cur)]
  | c :: l' =>
      if Ascii.eqb c sep then string_of_list_ascii (rev cur) :: split_go sep [] l'
      else split_go sep (c :: cur) l'
  end.

Definition py_split (sep : ascii) (s : string) : list string :=
  split_go sep [] (list_ascii_of_string s).

(* ------------------------------------------------------------------ *)
(** ** [float(s)] on a string

    The grammar of CPython's [float()]: surrounding whitespace, an
    optional sign, then [inf], [infinity] or [nan] (any case) or a decimal
    literal [digitpart ["." [digitpart]] [exponent]] or
    ["." digitpart [exponent]], where a digitpart may contain single
    underscores between digits. *)

(** Digits after the first one: returns the value, the digit count and
    the rest. *)
Fixpoint digits_rest (acc : Z) (n : nat) (l : list ascii) : Z * nat * list ascii :=
  match l with
  | c :: l' =>
      if is_digit c then digits_rest (acc * 10 + digit_val c) (S n) l'
      else if Ascii.eqb c "_"%char then
        match l' with
        | d :: l'' =>
            if is_digit d then digits_rest (acc * 10 + digit_val d) (S n) l''
            else (acc, n, l)
        | [] => (acc, n, l)
        end
      else (acc, n, l)
  | [] => (acc, n, l)
  end.

Definition digitpart (l : list ascii) : option (Z * nat * list ascii) :=
  match l with
  | d :: l' => if is_digit d then Some (digits_rest (digit_val d) 1 l') else None
  | [] => None
  end.

Definition parse_sign (l : list ascii) : bool * list ascii :=
  match l with
  | "-"%char :: l' => (true, l')
  | "+"%char :: l' => (false, l')
  | _ => (false, l)
  end.

(** Optional exponent, then the end of the literal. *)
Definition parse_exponent (l : list ascii) : option Z :=
  match l with
  | [] => Some 0
  | c :: l' =>
      if Ascii.eqb c "e"%char || Ascii.eqb c "E"%char then
        let (neg, l'') := parse_sign l' in
        match digitpart l'' with
        | Some (x, _, []) => Some (if neg then - x else x)
        | _ => None
        end
      else None
  end.

Definition scale (m : Z) (k : nat) (fr : Z) : Z := m * 10 ^ Z.of_nat k + fr.

(** A decimal literal without sign: mantissa and power of ten. *)
Definition parse_decimal (l : list ascii) : option (Z * Z) :=
  match digitpart l with
  | Some (ip, _, r) =>
      match r with
      | "."%char :: r' =>
          match digitpart r' with
          | Some (fp, k, r'') =>
              option_map (fun x => (scale ip k fp, x - Z.of_nat k)) (parse_exponent r'')
          | None => option_map (fun x => (ip, x)) (parse_exponent r')
          end
      | _ => option_map (fun x => (ip, x)) (parse_exponent r)
      end
  | None =>
      match l with
      | "."%char :: r' =>
          match digitpart r' with
          | Some (fp, k, r'') =>
              option_map (fun x => (fp, x - Z.of_nat k)) (parse_exponent r'')
          | None => None
          end
      | _ => None
      end
  end.

Definition py_float_str (s : string) : option pyfloat :=
  let (neg, body) := parse_sign (list_ascii_of_string (float_strip s)) in
  let w := string_of_list_ascii (map to_lower body) in
  if String.eqb w "inf" || String.eqb w "infinity" then Some (FInf neg)
  else if String.eqb w "nan" then Some FNaN
  else option_map (fun '(m, e) => FNum neg m e) (parse_decimal body).

(** [float(v)]. *)
Definition py_float (v : pyval) : exn + pyfloat :=
  match v with
  | PFloat f => inr f
  | PInt z => inr (FNum (z <? 0) (Z.abs z) 0)
  | PStr s =>
      match py_float_str s with
      | Some f => inr f
      | None => inl (ValueError "could not convert string to float")
      end
  | PNone => inl (TypeError "float() argument must be a string or a real number, not 'NoneType'")
  end.

(* ------------------------------------------------------------------ *)
(** ** The waveform token converter

    [conv_string], local to [Rigol1054Z.get_samples]:
<<
        def conv_string(string):
            if len(string.strip()) != 0:
                if string[0] == "#":
                    string = string[11:]
                # fix some common issues I've seen
                string.replace("ee", "e")
                try:
                    data = float(string)
                    return data
                except:
                    pass
            print("WARNING: Dropped packet!")
            return None
>> *)
Definition conv_string (string0 : string) : pyval :=
  if negb (String.length (py_strip string0) =? 0)%nat then
    let string1 :=
      match string0 with
      | String "#" _ => py_slice_from 11 string0
      | _ => string0
      end in
    (* the result of [replace] is not assigned back *)
    let _fixed := py_str_replace string1 "ee" "e" in
    match py_float_str string1 with
    | Some data => PFloat data
    | None => PNone
    end
  else PNone.

(* ------------------------------------------------------------------ *)
(** ** [str(v)] and [str.format] *)

Fixpoint nat_digits (fuel : nat) (n : Z) (acc : string) : string :=
  match fuel with
  | O => acc
  | S fuel' =>
      let acc' := String (ascii_of_nat (Z.to_nat (48 + n mod 10))) acc in
      if n <? 10 then acc' else nat_digits fuel' (n / 10) acc'
  end.

(** Decimal digits of a non-negative integer. *)
Definition nat_string (n : Z) : string := nat_digits (S (Z.to_nat (Z.log2 (n + 1)))) n "".

(** [str(z)] for an [int]. *)
Definition z_to_string (z : Z) : string :=
  if z <? 0 then "-" ++ nat_string (- z) else nat_string z.

Fixpoint drop_zeros (l : list ascii) : list ascii :=
  match l with
  | "0"%char :: l' => drop_zeros l'
  | _ => l
  end.

(** [str(f)] for a [float], CPython's repr: the digits of [m] without
    trailing zeros, written positionally with at least one digit after
    the point ("0.5", "1.0", "0.0001") when the decimal exponent [x] of
    the leading digit is in [-4, 16), and as [d.ddde+XX] otherwise
    ("1e-05", "1.5e+16"), with at least two exponent digits.  The value
    is taken as written: [FNum] is the shortest decimal of a double, so
    no rounding to 17 significant digits is modelled. *)
Definition float_repr (f : pyfloat) : string :=
  match f with
  | FInf neg => (if neg then "-" else "") ++ "inf"
  | FNaN => "nan"
  | FNum neg m e =>
      (if neg then "-" else "") ++
      (if m =? 0 then "0.0"
       else
         let ds0 := list_ascii_of_string (nat_string m) in
         let ds := rev (drop_zeros (rev ds0)) in
         let e' := e + Z.of_nat (length ds0 - length ds) in
         let n := Z.of_nat (length ds) in
         let x := n - 1 + e' in
         if (-4 <=? x) && (x <? 16) then
           if 0 <=? e' then
             string_of_list_ascii (ds ++ repeat "0"%char (Z.to_nat e')) ++ ".0"
           else if 0 <=? x then
             string_of_list_ascii (firstn (Z.to_nat (x + 1)) ds) ++ "." ++
             string_of_list_ascii (skipn (Z.to_nat (x + 1)) ds)
           else
             "0." ++ string_of_list_ascii (repeat "0"%char (Z.to_nat (- x - 1)) ++ ds)
         else
           let xs := nat_string (Z.abs x) in
           string_of_list_ascii (firstn 1 ds) ++
           (match skipn 1 ds with [] => "" | tl => "." ++ string_of_list_ascii tl end) ++
           "e" ++ (if x <? 0 then "-" else "+") ++
           (if Z.abs x <? 10 then "0" else "") ++ xs)
  end.

Definition py_str (v : pyval) : string :=
  match v with
  | PNone => "None"
  | PInt z => z_to_string z
  | PFloat f => float_repr f
  | PStr s => s
  end.

(** [getattr(v, a)] for the data attributes of numbers. *)
Definition py_getattr (v : pyval) (a : string) : exn + pyval :=
  match v with
  | PFloat _ =>
      if String.eqb a "real" then inr v
      else if String.eqb a "imag" then inr (PFloat (FNum false 0 0))
      else inl (AttributeError a)
  | PInt _ =>
      if String.eqb a "real" || String.eqb a "numerator" then inr v
      else if String.eqb a "imag" then inr (PInt 0)
      else if String.eqb a "denominator" then inr (PInt 1)
      else inl (AttributeError a)
  | _ => inl (AttributeError a)
  end.

(** Text of a replacement field up to its closing brace. *)
Fixpoint take_field (l acc : list ascii) : exn + (list ascii * list ascii) :=
  match l with
  | [] => inl (ValueError "expected '}' before end of string")
  | c :: l' =>
      if Ascii.eqb c "}"%char then inr (rev acc, l')
      else if Ascii.eqb c "{"%char then inl NotModelled
      else take_field l' (c :: acc)
  end.

Fixpoint getattr_chain (v : pyval) (attrs : list string) : exn + pyval :=
  match attrs with
  | [] => inr v
  | a :: attrs' =>
      if String.eqb a "" then inl (ValueError "Empty attribute in format string")
      else match py_getattr v a with
           | inr v' => getattr_chain v' attrs'
           | inl e => inl e
           end
  end.

(** A field [arg_name ("." attribute)*] with an empty [arg_name] takes the
    next positional argument (automatic numbering). *)
Definition eval_field (field : list ascii) (args : list pyval) (auto : nat) : exn + pyval :=
  if existsb (fun c => Ascii.eqb c ":"%char || Ascii.eqb c "!"%char || Ascii.eqb c "["%char) field
  then inl NotModelled
  else
    match py_split "." (string_of_list_ascii field) with
    | [] => inl NotModelled
    | arg_name :: attrs =>
        if negb (String.eqb arg_name "") then inl NotModelled
        else match nth_error args auto with
             | None => inl (IndexError "Replacement index out of range for positional args tuple")
             | Some v => getattr_chain v attrs
             end
    end.

Fixpoint format_go (fuel : nat) (l : list ascii) (args : list pyval) (auto : nat)
  : exn + list ascii :=
  match fuel with
  | O => inr l
  | S fuel' =>
      match l with
      | [] => inr []
      | "{"%char :: "{"%char :: r =>
          match format_go fuel' r args auto with
          | inr out => inr ("{"%char :: out) | inl e => inl e end
      | "{"%char :: r =>
          match take_field r [] with
          | inl e => inl e
          | inr (field, r') =>
              match eval_field field args auto with
              | inl e => inl e
              | inr v =>
                  match format_go fuel' r' args (S auto) with
                  | inr out => inr (list_ascii_of_string (py_str v) ++ out)
                  | inl e => inl e
                  end
              end
          end
      | "}"%char :: "}"%char :: r =>
          match format_go fuel' r args auto with
          | inr out => inr ("}"%char :: out) | inl e => inl e end
      | "}"%char :: _ => inl (ValueError "Single '}' encountered in format string")
      | c :: r =>
          match format_go fuel' r args auto with
          | inr out => inr (c :: out) | inl e => inl e end
      end
  end.

(** [template.format(args...)]. *)
Definition py_format (template : string) (args : list pyval) : exn + string :=
  let l := list_ascii_of_string template in
  match format_go (length l) l args 0 with
  | inr out => inr (string_of_list_ascii out)
  | inl e => inl e
  end.

(* ------------------------------------------------------------------ *)
(** ** The transport: an event trace with exceptions

    [EWrite] is [self.device.write(msg)], [ESleep ms] is
    [time.sleep(ms / 1000)], [EQuery cmd reply] is one query exchange
    ([device.ask] or [device.query_ascii_values]) with the reply read. *)
Inductive event :=
| EWrite (msg : string)
| ESleep (ms : Z)
| EQuery (cmd reply : string).

Definition trace := list event.

(** A computation runs on the trace so far, appends its events, and
    returns a value or raises. *)
Definition M (A : Type) : Type := trace -> (exn + A) * trace.

Definition ret {A} (a : A) : M A := fun t => (inr a, t).

Definition bind {A B} (m : M A) (k : A -> M B) : M B :=
  fun t => match m t with
           | (inr a, t') => k a t'
           | (inl e, t') => (inl e, t')
           end.

Definition raise {A} (e : exn) : M A := fun t => (inl e, t).

Definition lift {A} (r : exn + A) : M A := fun t => (r, t).

Notation "x <- m ;; k" := (bind m (fun x => k))
  (at level 61, m at next level, right associativity).
Notation "m ;;; k" := (bind m (fun _ => k))
  (at level 61, right associativity).

(** [[f(x) for x in xs]] where [f] may raise. *)
Fixpoint map_exn {A B} (f : A -> exn + B) (xs : list A) : exn + list B :=
  match xs with
  | [] => inr []
  | x :: xs' =>
      match f x with
      | inl e => inl e
      | inr y => match map_exn f xs' with inl e => inl e | inr ys => inr (y :: ys) end
      end
  end.

(** [xs[0]] on a list. *)
Definition list_index0 {A} (xs : list A) : exn + A :=
  match xs with
  | x :: _ => inr x
  | [] => inl (IndexError "list index out of range")
  end.

(** [d[k]] on a dict with string keys, kept as an association list. *)
Fixpoint dict_get (d : list (string * string)) (k : string) : exn + string :=
  match d with
  | [] => inl (KeyError k)
  | (k', v) :: d' => if String.eqb k k' then inr v else dict_get d' k
  end.

(** pyvisa's default converter ['f'], that is [float]. *)
Definition float_converter (s : string) : exn + pyval :=
  match py_float (PStr s) with
  | inr f => inr (PFloat f)
  | inl e => inl e
  end.

Section Transport.
(** The instrument's reply to a query, given everything exchanged so
    far: an arbitrary instrument. *)
Variable instrument : trace -> string -> string.

Definition device_write (msg : string) : M unit :=
  fun t => (inr tt, t ++ [EWrite msg]).

Definition time_sleep (ms : Z) : M unit :=
  fun t => (inr tt, t ++ [ESleep ms]).

Definition device_ask (cmd : string) : M string :=
  fun t => let r := instrument t cmd in (inr r, t ++ [EQuery cmd r]).

(** [device.query_ascii_values(cmd, converter=conv)]: one query, the
    reply split at commas, [conv] applied to every token. *)
Definition query_ascii_values (cmd : string) (conv : string -> exn + pyval)
  : M (list pyval) :=
  reply <- device_ask cmd ;;
  lift (map_exn conv (py_split "," reply)).
End Transport.

(* ------------------------------------------------------------------ *)
(** ** [BaseVisaDevice] *)
Module BaseVisaDevice.
Section Methods.
Variable instrument : trace -> string -> string.

(**
<<
  def write(self, message):
      self.device.write(message)
      time.sleep(0.1)
      error = self.device.ask('SYST:ERR?')
      if error[0]:
          print('`{}` recieved. No error occured'.format(message))
          return 0
      else:
          print('`{}` recieved. An Error occured: {}'.format(message, error))
          return error[0]
>> *)
Definition write (message : string) : M pyval :=
  device_write message ;;;
  time_sleep 100 ;;;
  error <- device_ask instrument "SYST:ERR?" ;;
  c <- lift (py_index0 error) ;;
  if py_truthy (PStr c) then ret (PInt 0) else ret (PStr c).

(**
<<
  def reset(self):
      self.write("*RST")
      time.sleep(0.2)
>> *)
Definition reset : M pyval :=
  write "*RST" ;;;
  time_sleep 200 ;;;
  ret PNone.
End Methods.
End BaseVisaDevice.

(* ------------------------------------------------------------------ *)
(** ** [RigolDP832] *)
Module RigolDP832.
Section Methods.
Variable instrument : trace -> string -> string.
Let write := BaseVisaDevice.write instrument.

Definition turn_off (channel : Z) : M pyval :=
  if (channel <=? 0) || (channel >? 3) then raise (RuntimeError "Invalid channel!")
  else cmd <- lift (py_format ":OUTP CH{},OFF" [PInt channel]) ;;
       write cmd ;;; ret PNone.

Definition turn_on (channel : Z) : M pyval :=
  if (channel <=? 0) || (channel >? 3) then raise (RuntimeError "Invalid channel!")
  else cmd <- lift (py_format ":OUTP CH{},ON" [PInt channel]) ;;
       write cmd ;;; ret PNone.

Definition measure (template : string) (channel : Z) (dc : bool) : M pyval :=
  let dc_command := ":DC"%string in
  cmd <- lift (py_format template [PStr (if dc then dc_command else ""); PInt channel]) ;;
  vals <- query_ascii_values instrument cmd float_converter ;;
  lift (list_index0 vals).

Definition measure_voltage := measure ":MEAS:VOLT{}? CH{}".
Definition measure_current := measure ":MEAS:CURR{}? CH{}".
Definition measure_power := measure ":MEAS:ALL{}? CH{}".
End Methods.
End RigolDP832.

(* ------------------------------------------------------------------ *)
(** ** [Rigol1054Z] *)
Module Rigol1054Z.
Definition DIVS_VERTICAL : Z := 8.
Definition DIVS_HORIZONTAL : Z := 12.

Section Methods.
Variable instrument : trace -> string -> string.
Let write := BaseVisaDevice.write instrument.

Definition turn_on (channel : Z) : M pyval :=
  if (channel <=? 0) || (channel >? 4) then raise (RuntimeError "Invalid channel!")
  else cmd <- lift (py_format ":CHAN{}:DISP ON" [PInt channel]) ;;
       write cmd ;;; ret PNone.

Definition turn_off (channel : Z) : M pyval :=
  if (channel <=? 0) || (channel >? 4) then raise (RuntimeError "Invalid channel!")
  else cmd <- lift (py_format ":CHAN{}:DISP OFF" [PInt channel]) ;;
       write cmd ;;; ret PNone.

Definition channel_scale_set (channel : Z) (scale_factor : pyval) : M pyval :=
  cmd <- lift (py_format ":CHAN{}:SCAL {}" [PInt channel; scale_factor]) ;;
  write cmd ;;; ret PNone.

Definition channel_scale_get (channel : Z) : M pyval :=
  cmd <- lift (py_format ":CHAN{}:SCAL?" [PInt channel]) ;;
  vals <- query_ascii_values instrument cmd float_converter ;;
  lift (list_index0 vals).

Definition channel_offset_set (channel : Z) (offset : pyval) : M pyval :=
  cmd <- lift (py_format ":CHAN{}:OFFS {}" [PInt channel; offset]) ;;
  write cmd ;;; ret PNone.

(** The channel is not used: the query reads the waveform Y origin. *)
Definition channel_offset_get (channel : Z) : M pyval :=
  vals <- query_ascii_values instrument ":WAV:YOR?" float_converter ;;
  lift (list_index0 vals).

Definition timescale (timescale : pyval) : M pyval :=
  cmd <- lift (py_format ":TIM:SCAL {}" [timescale]) ;;
  write cmd ;;; ret PNone.

Definition trigger_offset (time_offset : pyval) : M pyval :=
  cmd <- lift (py_format ":TIM:OFFS {}" [time_offset]) ;;
  write cmd ;;; ret PNone.

Definition capture_start : M pyval := write ":START" ;;; ret PNone.

Definition capture_stop : M pyval := write ":STOP" ;;; ret PNone.

(**
<<
  def trigger_edge_config(self, channel, level, trig_type="single",
                          coupling="DC", slope="falling"):
      type_lookup = {"single": "SING"}
      slope_lookup = {"falling": "NEG", "rising": "POS"}
      coupling = coupling.strip().upper()
      if coupling != "DC" and coupling != "AC":
          raise RuntimeError("Invalid coupling type!")
      slope = slope_lookup[slope.strip().lower()]
      trig_type = type_lookup[trig_type.strip().lower()]
      self.write(':TRIG:EDGE:SOUR CHAN{}'.format(channel))
      self.write(':TRIG:EDGE:SWE {}'.format(trig_type))
      self.write(':TRIG:EDGE:COUP {}'.format(coupling))
      self.write(':TRIG:EDGE:SLOP {}'.format(slope))
      self.write(':TRIG:EDGE:LEV {.5f}'.format(float(level)))
>> *)
Definition trigger_edge_config (channel : Z) (level : pyval)
    (trig_type coupling slope : string) : M pyval :=
  let type_lookup := [("single", "SING")]%string in
  let slope_lookup := [("falling", "NEG"); ("rising", "POS")]%string in
  match py_upper (py_strip coupling) with
  | None =>
      (* a capital past U+00FF: the string is neither "DC" nor "AC" *)
      raise (RuntimeError "Invalid coupling type!")
  | Some coupling =>
      if negb (String.eqb coupling "DC") && negb (String.eqb coupling "AC")
      then raise (RuntimeError "Invalid coupling type!")
      else
        slope <- lift (dict_get slope_lookup (py_lower (py_strip slope))) ;;
        trig_type <- lift (dict_get type_lookup (py_lower (py_strip trig_type))) ;;
        c1 <- lift (py_format ":TRIG:EDGE:SOUR CHAN{}" [PInt channel]) ;; write c1 ;;;
        c2 <- lift (py_format ":TRIG:EDGE:SWE {}" [PStr trig_type]) ;; write c2 ;;;
        c3 <- lift (py_format ":TRIG:EDGE:COUP {}" [PStr coupling]) ;; write c3 ;;;
        c4 <- lift (py_format ":TRIG:EDGE:SLOP {}" [PStr slope]) ;; write c4 ;;;
        lv <- lift (py_float level) ;;
        c5 <- lift (py_format ":TRIG:EDGE:LEV {.5f}" [PFloat lv]) ;; write c5 ;;;
        ret PNone
  end.

(**
<<
  def get_samples(self, channel):
      ...
      self.write(":WAV:FORM ASCII")
      self.device.write(":WAV:POIN:MODE RAW")
      data = self.device.query_ascii_values(":WAV:DATA? CHAN1", converter=conv_string)
      return data
>> *)
Definition get_samples (channel : Z) : M (list pyval) :=
  write ":WAV:FORM ASCII" ;;;
  device_write ":WAV:POIN:MODE RAW" ;;;
  data <- query_ascii_values instrument ":WAV:DATA? CHAN1" (fun s => inr (conv_string s)) ;;
  ret data.

Definition samplerate_get : M pyval :=
  vals <- query_ascii_values instrument ":ACQ:SAMP?" float_converter ;;
  lift (list_index0 vals).
End Methods.
End Rigol1054Z.

(* ------------------------------------------------------------------ *)
(** ** Every public operation of both instrument classes *)
Inductive op :=
| OpReset
| DPTurnOn (ch : Z) | DPTurnOff (ch : Z)
| DPMeasureVoltage (ch : Z) (dc : bool)
| DPMeasureCurrent (ch : Z) (dc : bool)
| DPMeasurePower (ch : Z) (dc : bool)
| DSTurnOn (ch : Z) | DSTurnOff (ch : Z)
| DSScaleSet (ch : Z) (v : pyval) | DSScaleGet (ch : Z)
| DSOffsetSet (ch : Z) (v : pyval) | DSOffsetGet (ch : Z)
| DSTimescale (v : pyval) | DSTriggerOffset (v : pyval)
| DSCaptureStart | DSCaptureStop
| DSTriggerEdgeConfig (ch : Z) (level : pyval) (trig_type coupling slope : string)
| DSGetSamples (ch : Z)
| DSSamplerateGet.

Definition run_op (instrument : trace -> string -> string) (o : op) : M unit :=
  match o with
  | OpReset => BaseVisaDevice.reset instrument ;;; ret tt
  | DPTurnOn ch => RigolDP832.turn_on instrument ch ;;; ret tt
  | DPTurnOff ch => RigolDP832.turn_off instrument ch ;;; ret tt
  | DPMeasureVoltage ch dc => RigolDP832.measure_voltage instrument ch dc ;;; ret tt
  | DPMeasureCurrent ch dc => RigolDP832.measure_current instrument ch dc ;;; ret tt
  | DPMeasurePower ch dc => RigolDP832.measure_power instrument ch dc ;;; ret tt
  | DSTurnOn ch => Rigol1054Z.turn_on instrument ch ;;; ret tt
  | DSTurnOff ch => Rigol1054Z.turn_off instrument ch ;;; ret tt
  | DSScaleSet ch v => Rigol1054Z.channel_scale_set instrument ch v ;;; ret tt
  | DSScaleGet ch => Rigol1054Z.channel_scale_get instrument ch ;;; ret tt
  | DSOffsetSet ch v => Rigol1054Z.channel_offset_set instrument ch v ;;; ret tt
  | DSOffsetGet ch => Rigol1054Z.channel_offset_get instrument ch ;;; ret tt
  | DSTimescale v => Rigol1054Z.timescale instrument v ;;; ret tt
  | DSTriggerOffset v => Rigol1054Z.trigger_offset instrument v ;;; ret tt
  | DSCaptureStart => Rigol1054Z.capture_start instrument ;;; ret tt
  | DSCaptureStop => Rigol1054Z.capture_stop instrument ;;; ret tt
  | DSTriggerEdgeConfig ch lv tt' cp sl =>
      Rigol1054Z.trigger_edge_config instrument ch lv tt' cp sl ;;; ret tt
  | DSGetSamples ch => Rigol1054Z.get_samples instrument ch ;;; ret tt
  | DSSamplerateGet => Rigol1054Z.samplerate_get instrument ;;; ret tt
  end.

(** The operations that take a channel and check it. *)
Definition is_turn_op (o : op) : bool :=
  match o with
  | DPTurnOn _ | DPTurnOff _ | DSTurnOn _ | DSTurnOff _ => true
  | _ => false
  end.

(* ------------------------------------------------------------------ *)
(** ** Construction: finding the instrument

    [sub in s] on strings. *)
Fixpoint py_in (sub s : string) : bool :=
  String.prefix sub s ||
  match s with
  | EmptyString => false
  | String _ s' => py_in sub s'
  end.

(** [BaseVisaDevice.__init__]:
<<
        try:
            self.rm = visa.ResourceManager()
            instrument_list = self.rm.list_resources()
            self.usb_devices = []
            for dev in instrument_list:
                if "USB" in dev:
                    self.usb_devices.append(dev)
        except visa.VisaIOError:
            print("Pyvisa is not able to find the connections")
>>
    [listing] is what [list_resources()] returns, or [None] when pyvisa
    raises [VisaIOError]; the result is the attribute [usb_devices], or
    [None] when it is never assigned. *)
Definition base_init (listing : option (list string)) : option (list string) :=
  match listing with
  | Some instrument_list => Some (filter (fun dev => py_in "USB" dev) instrument_list)
  | None => None
  end.

(** The loop of the subclass constructors: the first device whose name
    contains [family] is opened ([break]). *)
Fixpoint open_first (family : string) (devs : list string) : option string :=
  match devs with
  | [] => None
  | dev :: devs' => if py_in family dev then Some dev else open_first family devs'
  end.

(** [RigolDP832.__init__] / [Rigol1054Z.__init__]: the name of the
    resource opened ([self.device_name]).  Reading [self.usb_devices] when
    it was never assigned raises [AttributeError]. *)
Definition family_init (family failure : string) (listing : option (list string))
  : exn + string :=
  match base_init listing with
  | None => inl (AttributeError "usb_devices")
  | Some usb_devices =>
      match open_first family usb_devices with
      | Some dev => inr dev
      | None => inl (RuntimeError failure)
      end
  end.

Definition dp832_init := family_init "DP8" "Failed to find a DP832!".
Definition ds1054z_init := family_init "DS1Z" "Failed to find a DS1054Z!".

(* ------------------------------------------------------------------ *)
(** ** Observations on traces and sample instruments *)

Definition is_err_query (e : event) : bool :=
  match e with
  | EQuery q _ => String.eqb q "SYST:ERR?"
  | _ => false
  end.

(** Every [EWrite] is followed, later in the trace, by an error query. *)
Fixpoint writes_checked (es : trace) : bool :=
  match es with
  | [] => true
  | EWrite _ :: es' => existsb is_err_query es' && writes_checked es'
  | _ :: es' => writes_checked es'
  end.

Definition is_poin_write (e : event) : bool :=
  match e with
  | EWrite m => String.eqb m ":WAV:POIN:MODE RAW"
  | _ => false
  end.

(** Total time slept in a trace, in milliseconds. *)
Fixpoint total_sleep (es : trace) : Z :=
  match es with
  | [] => 0
  | ESleep ms :: es' => ms + total_sleep es'
  | _ :: es' => total_sleep es'
  end.

(** The [.5f] in ["{.5f}"] sits in the field name, so [str.format] looks
    up an attribute named ["5f"]; the format specification the level
    command is after would be written ["{:.5f}"]. *)
Definition level_attribute : string := "5f".

Definition dq : string := String "034"%char EmptyString.

Definition no_error_reply : string := ("0," ++ dq ++ "No error" ++ dq)%string.

(** An instrument whose error register is always empty. *)
Definition no_error : trace -> string -> string := fun _ _ => no_error_reply.

(** An instrument answering every query with [1, "Undefined header"]. *)
Definition undefined_header : string := ("1, " ++ dq ++ "Undefined header" ++ dq)%string.

Definition undefined_header_instrument : trace -> string -> string :=
  fun _ _ => undefined_header.

(** The header-stripping step of [conv_string]. *)
Definition strip_header (s : string) : string :=
  match s with
  | String "#" _ => py_slice_from 11 s
  | _ => s
  end.

(** A scope that answers the error query with no error and the waveform
    data query with [reply]. *)
Definition scope_with_data (reply : string) : trace -> string -> string :=
  fun _ q => if String.eqb q ":WAV:DATA? CHAN1" then reply else no_error_reply.

(* ================================================================== *)
(** * Lemmas *)

Lemma string_of_list_ascii_app (l1 l2 : list ascii) :
  string_of_list_ascii (l1 ++ l2) = (string_of_list_ascii l1 ++ string_of_list_ascii l2)%string.
Proof. induction l1 as [|c l1 IH]; simpl; [reflexivity | now rewrite IH]. Qed.

(** [BaseVisaDevice.write]: the write, the 0.1 s sleep, the error query;
    it returns 0 on any non-empty reply and raises on an empty one. *)
Lemma write_spec (inst : trace -> string -> string) (msg : string) (t0 : trace) :
  BaseVisaDevice.write inst msg t0 =
  let r := inst (t0 ++ [EWrite msg; ESleep 100]) "SYST:ERR?" in
  (match r with
   | EmptyString => inl (IndexError "string index out of range")
   | String _ _ => inr (PInt 0)
   end, t0 ++ [EWrite msg; ESleep 100; EQuery "SYST:ERR?" r]).
Proof.
  unfold BaseVisaDevice.write, bind, device_write, time_sleep, device_ask, lift, ret; simpl.
  rewrite <- !app_assoc; simpl.
  destruct (inst (t0 ++ [EWrite msg; ESleep 100]) "SYST:ERR?"); reflexivity.
Qed.

(** ** Writes followed by an error query *)

Lemma writes_checked_app (a b : trace) :
  writes_checked a = true -> writes_checked b = true -> writes_checked (a ++ b) = true.
Proof.
  induction a as [|e a IH]; simpl; intros Ha Hb; [exact Hb|].
  destruct e; try (apply IH; assumption).
  apply andb_true_iff in Ha as [Hq Ha].
  rewrite existsb_app, Hq, IH by assumption; reflexivity.
Qed.

Lemma existsb_err_query_filter (p : event -> bool) (es : trace) :
  (forall q r, p (EQuery q r) = true) ->
  existsb is_err_query es = true -> existsb is_err_query (filter p es) = true.
Proof.
  intros Hp; induction es as [|e es IH]; simpl; [discriminate|].
  intros H; apply orb_true_iff in H as [H|H].
  - destruct e; try discriminate. rewrite Hp; simpl in H |- *; rewrite H; reflexivity.
  - destruct (p e); simpl; rewrite IH by assumption; [apply orb_true_r | reflexivity].
Qed.

Lemma writes_checked_filter (p : event -> bool) (es : trace) :
  (forall q r, p (EQuery q r) = true) ->
  writes_checked es = true -> writes_checked (filter p es) = true.
Proof.
  intros Hp; induction es as [|e es IH]; simpl; [reflexivity|].
  destruct e; intros H.
  - apply andb_true_iff in H as [Hq H].
    destruct (p (EWrite msg)); simpl; [|auto].
    rewrite existsb_err_query_filter, IH by assumption; reflexivity.
  - destruct (p (ESleep ms)); simpl; auto.
  - rewrite Hp; simpl; auto.
Qed.

(** ** Computations whose own events satisfy a trace property *)
Section Emits.
Variable P : trace -> bool.
Hypothesis P_nil : P [] = true.
Hypothesis P_app : forall a b, P a = true -> P b = true -> P (a ++ b) = true.

Definition Emits {A} (m : M A) : Prop :=
  forall t0, exists es, snd (m t0) = t0 ++ es /\ P es = true.

Lemma Emits_ret {A} (a : A) : Emits (ret a).
Proof. intros t0; exists []; rewrite app_nil_r; auto. Qed.

Lemma Emits_raise {A} (e : exn) : Emits (@raise A e).
Proof. intros t0; exists []; rewrite app_nil_r; auto. Qed.

Lemma Emits_lift {A} (r : exn + A) : Emits (lift r).
Proof. intros t0; exists []; rewrite app_nil_r; auto. Qed.

Lemma Emits_bind {A B} (m : M A) (k : A -> M B) :
  Emits m -> (forall a, Emits (k a)) -> Emits (bind m k).
Proof.
  intros Hm Hk t0; unfold bind.
  destruct (Hm t0) as [es1 [E1 C1]].
  destruct (m t0) as [[e|a] t1] eqn:Em; simpl in E1; subst t1.
  - exists es1; auto.
  - destruct (Hk a (t0 ++ es1)) as [es2 [E2 C2]].
    exists (es1 ++ es2); rewrite E2, app_assoc; auto.
Qed.

Lemma Emits_if {A} (b : bool) (m1 m2 : M A) :
  Emits m1 -> Emits m2 -> Emits (if b then m1 else m2).
Proof. destruct b; auto. Qed.

Lemma Emits_sleep (ms : Z) : P [ESleep ms] = true -> Emits (time_sleep ms).
Proof. intros H t0; exists [ESleep ms]; auto. Qed.

Lemma Emits_ask inst (q : string) :
  (forall r, P [EQuery q r] = true) -> Emits (device_ask inst q).
Proof. intros H t0; eexists; split; [reflexivity | apply H]. Qed.

Lemma Emits_query inst q conv :
  (forall r, P [EQuery q r] = true) -> Emits (query_ascii_values inst q conv).
Proof.
  intros H; apply Emits_bind; [apply Emits_ask; exact H | intros; apply Emits_lift].
Qed.

Lemma Emits_write inst (msg : string) :
  (forall r, P [EWrite msg; ESleep 100; EQuery "SYST:ERR?" r] = true) ->
  Emits (BaseVisaDevice.write inst msg).
Proof. intros H t0; rewrite write_spec; simpl; eexists; split; [reflexivity | apply H]. Qed.
End Emits.

(** Closes [Emits P m] for [m] built from the methods' building blocks;
    [P_app] is given as [lem]. *)
Ltac solve_emits lem :=
  repeat (first
    [ exact lem
    | reflexivity
    | progress intros
    | match goal with
      | |- Emits _ (BaseVisaDevice.write _ _) => apply Emits_write
      | |- Emits _ (query_ascii_values _ _ _) => apply Emits_query
      | |- Emits _ (time_sleep _) => apply Emits_sleep
      | |- Emits _ (device_ask _ _) => apply Emits_ask
      | |- Emits _ (ret _) => apply Emits_ret
      | |- Emits _ (raise _) => apply Emits_raise
      | |- Emits _ (lift _) => apply Emits_lift
      | |- Emits _ (if _ then _ else _) => apply Emits_if
      | |- Emits _ (match ?x with Some _ => _ | None => _ end) => destruct x
      | |- Emits _ (bind _ _) => apply Emits_bind
      end ]).

Lemma run_op_writes_checked inst (o : op) :
  (forall ch, o <> DSGetSamples ch) -> Emits writes_checked (run_op inst o).
Proof.
  intros Hne; destruct o; simpl;
    try (exfalso; eapply Hne; reflexivity);
    unfold BaseVisaDevice.reset, RigolDP832.turn_on, RigolDP832.turn_off,
      RigolDP832.measure_voltage, RigolDP832.measure_current, RigolDP832.measure_power,
      RigolDP832.measure, Rigol1054Z.turn_on, Rigol1054Z.turn_off,
      Rigol1054Z.channel_scale_set, Rigol1054Z.channel_scale_get,
      Rigol1054Z.channel_offset_set, Rigol1054Z.channel_offset_get,
      Rigol1054Z.timescale, Rigol1054Z.trigger_offset, Rigol1054Z.capture_start,
      Rigol1054Z.capture_stop, Rigol1054Z.trigger_edge_config,
      Rigol1054Z.samplerate_get; cbv zeta; solve_emits writes_checked_app.
Qed.

Lemma classic_get_samples (o : op) :
  (exists ch, o = DSGetSamples ch) \/ (forall ch, o <> DSGetSamples ch).
Proof. destruct o; try (right; discriminate); left; eauto. Qed.

(** [get_samples] step by step. *)
Lemma get_samples_spec inst (ch : Z) (t0 : trace) :
  Rigol1054Z.get_samples inst ch t0 =
  let t1 := t0 ++ [EWrite ":WAV:FORM ASCII"; ESleep 100] in
  let r := inst t1 "SYST:ERR?" in
  match r with
  | EmptyString => (inl (IndexError "string index out of range"), t1 ++ [EQuery "SYST:ERR?" r])
  | String _ _ =>
      let t2 := t1 ++ [EQuery "SYST:ERR?" r; EWrite ":WAV:POIN:MODE RAW"] in
      let d := inst t2 ":WAV:DATA? CHAN1" in
      (inr (map conv_string (py_split "," d)), t2 ++ [EQuery ":WAV:DATA? CHAN1" d])
  end.
Proof.
  unfold Rigol1054Z.get_samples at 1; unfold bind at 1.
  rewrite write_spec; cbv zeta.
  destruct (inst (t0 ++ [EWrite ":WAV:FORM ASCII"; ESleep 100]) "SYST:ERR?") as [|c s];
    [rewrite <- app_assoc; reflexivity|].
  unfold bind, device_write, query_ascii_values, device_ask, lift, ret; simpl.
  rewrite <- !app_assoc; simpl.
  set (d := inst _ ":WAV:DATA? CHAN1").
  assert (Hm : forall l, map_exn (fun s0 => inr (conv_string s0)) l = inr (map conv_string l) :> (exn + list pyval)).
  { induction l as [|x l IH]; simpl; [reflexivity | now rewrite IH]. }
  rewrite Hm; reflexivity.
Qed.

(** ** The command strings, for a symbolic channel *)

Lemma string_app_nil_r (s : string) : (s ++ "")%string = s.
Proof. induction s as [|c s IH]; simpl; [reflexivity | now rewrite IH]. Qed.

Ltac solve_format :=
  unfold py_format;
  repeat (first [ rewrite string_of_list_ascii_app
                | rewrite string_of_list_ascii_of_string
                | progress cbn -[py_str z_to_string] ]);
  rewrite ?string_app_nil_r; reflexivity.

Lemma format_dp_on (ch : Z) :
  py_format ":OUTP CH{},ON" [PInt ch] = inr (":OUTP CH" ++ z_to_string ch ++ ",ON")%string.
Proof. solve_format. Qed.

Lemma format_dp_off (ch : Z) :
  py_format ":OUTP CH{},OFF" [PInt ch] = inr (":OUTP CH" ++ z_to_string ch ++ ",OFF")%string.
Proof. solve_format. Qed.

Lemma format_ds_on (ch : Z) :
  py_format ":CHAN{}:DISP ON" [PInt ch] = inr (":CHAN" ++ z_to_string ch ++ ":DISP ON")%string.
Proof. solve_format. Qed.

Lemma format_ds_off (ch : Z) :
  py_format ":CHAN{}:DISP OFF" [PInt ch] = inr (":CHAN" ++ z_to_string ch ++ ":DISP OFF")%string.
Proof. solve_format. Qed.

Lemma format_scale_set (ch : Z) (v : pyval) :
  py_format ":CHAN{}:SCAL {}" [PInt ch; v]
  = inr (":CHAN" ++ z_to_string ch ++ ":SCAL " ++ py_str v)%string.
Proof. solve_format. Qed.

Lemma format_offset_set (ch : Z) (v : pyval) :
  py_format ":CHAN{}:OFFS {}" [PInt ch; v]
  = inr (":CHAN" ++ z_to_string ch ++ ":OFFS " ++ py_str v)%string.
Proof. solve_format. Qed.

Lemma format_scale_get (ch : Z) :
  py_format ":CHAN{}:SCAL?" [PInt ch] = inr (":CHAN" ++ z_to_string ch ++ ":SCAL?")%string.
Proof. solve_format. Qed.

Lemma format_source (ch : Z) :
  py_format ":TRIG:EDGE:SOUR CHAN{}" [PInt ch]
  = inr (":TRIG:EDGE:SOUR CHAN" ++ z_to_string ch)%string.
Proof. solve_format. Qed.

Lemma format_measure_voltage (ch : Z) (dc : bool) :
  py_format ":MEAS:VOLT{}? CH{}" [PStr (if dc then ":DC" else ""); PInt ch]
  = inr (":MEAS:VOLT" ++ (if dc then ":DC" else "") ++ "? CH" ++ z_to_string ch)%string.
Proof. destruct dc; solve_format. Qed.

Lemma format_coupling (c : string) :
  py_format ":TRIG:EDGE:COUP {}" [PStr c] = inr (":TRIG:EDGE:COUP " ++ c)%string.
Proof. solve_format. Qed.

Lemma format_slope (c : string) :
  py_format ":TRIG:EDGE:SLOP {}" [PStr c] = inr (":TRIG:EDGE:SLOP " ++ c)%string.
Proof. solve_format. Qed.

Lemma format_measure_current (ch : Z) (dc : bool) :
  py_format ":MEAS:CURR{}? CH{}" [PStr (if dc then ":DC" else ""); PInt ch]
  = inr (":MEAS:CURR" ++ (if dc then ":DC" else "") ++ "? CH" ++ z_to_string ch)%string.
Proof. destruct dc; solve_format. Qed.

Lemma format_measure_power (ch : Z) (dc : bool) :
  py_format ":MEAS:ALL{}? CH{}" [PStr (if dc then ":DC" else ""); PInt ch]
  = inr (":MEAS:ALL" ++ (if dc then ":DC" else "") ++ "? CH" ++ z_to_string ch)%string.
Proof. destruct dc; solve_format. Qed.

Lemma format_timescale (v : pyval) :
  py_format ":TIM:SCAL {}" [v] = inr (":TIM:SCAL " ++ py_str v)%string.
Proof. solve_format. Qed.

Lemma format_trigger_offset (v : pyval) :
  py_format ":TIM:OFFS {}" [v] = inr (":TIM:OFFS " ++ py_str v)%string.
Proof. solve_format. Qed.

Lemma format_sweep (c : string) :
  py_format ":TRIG:EDGE:SWE {}" [PStr c] = inr (":TRIG:EDGE:SWE " ++ c)%string.
Proof. solve_format. Qed.

(** The level field ["{.5f}"] asks the float for an attribute ["5f"]. *)
Lemma format_level (f : pyfloat) :
  py_format ":TRIG:EDGE:LEV {.5f}" [PFloat f] = inl (AttributeError level_attribute).
Proof. reflexivity. Qed.

(** ** Channel validation *)

(** [f] sends [cmd ch] (followed by the error query) for a channel in
    [1, maxc], and raises [RuntimeError("Invalid channel!")] without any
    exchange for a channel outside it. *)
Definition channel_validated (maxc : Z) (f : Z -> M pyval) (cmd : Z -> string) : Prop :=
  forall ch t0,
    (1 <= ch <= maxc ->
       exists r, snd (f ch t0) = t0 ++ [EWrite (cmd ch); ESleep 100; EQuery "SYST:ERR?" r]) /\
    (~ (1 <= ch <= maxc) -> f ch t0 = (inl (RuntimeError "Invalid channel!"), t0)).

Lemma bind_lift_inr {A B} (a : A) (k : A -> M B) : bind (lift (inr a)) k = k a.
Proof. reflexivity. Qed.

Lemma bind_lift_inl {A B} (e : exn) (k : A -> M B) : bind (lift (inl e)) k = raise e.
Proof. reflexivity. Qed.

Lemma write_then_ret inst (msg : string) (t0 : trace) :
  exists r, snd ((BaseVisaDevice.write inst msg ;;; ret PNone) t0)
            = t0 ++ [EWrite msg; ESleep 100; EQuery "SYST:ERR?" r].
Proof.
  unfold bind at 1; rewrite write_spec; cbv zeta.
  set (r := inst _ _); exists r; destruct r; reflexivity.
Qed.

Ltac solve_validated maxc fmt :=
  intros ch t0; split; intros Hch;
  [ destruct (Z.leb_spec ch 0); [lia|];
    rewrite Z.gtb_ltb; destruct (Z.ltb_spec maxc ch); [lia|];
    simpl; rewrite fmt, bind_lift_inr; apply write_then_ret
  | rewrite Z.gtb_ltb;
    destruct (Z.leb_spec ch 0); [reflexivity|];
    destruct (Z.ltb_spec maxc ch); [reflexivity | lia] ].

Lemma dp_turn_on_validated inst :
  channel_validated 3 (RigolDP832.turn_on inst)
    (fun ch => ":OUTP CH" ++ z_to_string ch ++ ",ON")%string.
Proof. unfold RigolDP832.turn_on; solve_validated 3 format_dp_on. Qed.

Lemma dp_turn_off_validated inst :
  channel_validated 3 (RigolDP832.turn_off inst)
    (fun ch => ":OUTP CH" ++ z_to_string ch ++ ",OFF")%string.
Proof. unfold RigolDP832.turn_off; solve_validated 3 format_dp_off. Qed.

Lemma ds_turn_on_validated inst :
  channel_validated 4 (Rigol1054Z.turn_on inst)
    (fun ch => ":CHAN" ++ z_to_string ch ++ ":DISP ON")%string.
Proof. unfold Rigol1054Z.turn_on; solve_validated 4 format_ds_on. Qed.

Lemma ds_turn_off_validated inst :
  channel_validated 4 (Rigol1054Z.turn_off inst)
    (fun ch => ":CHAN" ++ z_to_string ch ++ ":DISP OFF")%string.
Proof. unfold Rigol1054Z.turn_off; solve_validated 4 format_ds_off. Qed.

(** ** The token converter *)

Lemma conv_string_spec (tok : string) :
  conv_string tok =
  if String.eqb (py_strip tok) "" then PNone
  else match py_float_str (strip_header tok) with
       | Some f => PFloat f
       | None => PNone
       end.
Proof. unfold conv_string, strip_header; destruct (py_strip tok); reflexivity. Qed.

(** [get_samples] on the replies it actually receives: [r] to the error
    query of its first write, [d] to the data query. *)
Lemma get_samples_reply inst (ch : Z) (t0 : trace) :
  let t1 := t0 ++ [EWrite ":WAV:FORM ASCII"; ESleep 100] in
  let r := inst t1 "SYST:ERR?" in
  let d := inst (t1 ++ [EQuery "SYST:ERR?" r; EWrite ":WAV:POIN:MODE RAW"]) ":WAV:DATA? CHAN1" in
  (r = EmptyString /\ fst (Rigol1054Z.get_samples inst ch t0) = inl (IndexError "string index out of range")) \/
  (r <> EmptyString /\ fst (Rigol1054Z.get_samples inst ch t0) = inr (map conv_string (py_split "," d))).
Proof.
  cbv zeta; rewrite get_samples_spec; cbv zeta.
  destruct (inst _ "SYST:ERR?") as [|c s]; [left; split; reflexivity | right].
  split; [discriminate | reflexivity].
Qed.

(** ** [trigger_edge_config] *)

(** With trig_type "single", coupling "DC" and slope "rising": the four
    configuration writes, then the level field raises. *)
Lemma trigger_edge_config_spec inst (ch : Z) (f : pyfloat) (t0 : trace) :
  Rigol1054Z.trigger_edge_config inst ch (PFloat f) "single" "DC" "rising" t0
  = (BaseVisaDevice.write inst (":TRIG:EDGE:SOUR CHAN" ++ z_to_string ch) ;;;
     BaseVisaDevice.write inst ":TRIG:EDGE:SWE SING" ;;;
     BaseVisaDevice.write inst ":TRIG:EDGE:COUP DC" ;;;
     BaseVisaDevice.write inst ":TRIG:EDGE:SLOP POS" ;;;
     @raise pyval (AttributeError level_attribute)) t0.
Proof. unfold Rigol1054Z.trigger_edge_config; rewrite format_source; reflexivity. Qed.

(** A computation that never returns normally. *)
Definition Raises {A} (m : M A) : Prop := forall t0, exists e, fst (m t0) = inl e.

Lemma Raises_raise {A} (e : exn) : Raises (@raise A e).
Proof. intros t0; exists e; reflexivity. Qed.

Lemma Raises_bind {A B} (m : M A) (k : A -> M B) :
  (forall a, Raises (k a)) -> Raises (bind m k).
Proof.
  intros Hk t0; unfold bind.
  destruct (m t0) as [[e|a] t1]; [exists e; reflexivity | apply Hk].
Qed.

Definition is_level_write (e : event) : bool :=
  match e with
  | EWrite m => String.prefix ":TRIG:EDGE:LEV" m
  | _ => false
  end.

Definition no_level_write (es : trace) : bool := forallb (fun e => negb (is_level_write e)) es.

Lemma no_level_write_app (a b : trace) :
  no_level_write a = true -> no_level_write b = true -> no_level_write (a ++ b) = true.
Proof. unfold no_level_write; rewrite forallb_app; intros -> ->; reflexivity. Qed.

(** ** Queries *)

Lemma query_then_index0 inst (cmd : string) conv (t0 : trace) :
  snd ((vals <- query_ascii_values inst cmd conv ;; lift (list_index0 vals)) t0)
  = t0 ++ [EQuery cmd (inst t0 cmd)].
Proof.
  unfold bind, query_ascii_values, device_ask, lift; simpl.
  destruct (map_exn _ _); reflexivity.
Qed.

(** ** Computations that never raise a given exception *)

Section Avoids.
Variable e : exn.

Definition Avoids {A} (m : M A) : Prop := forall t0, fst (m t0) <> inl e.

Lemma Avoids_ret {A} (a : A) : Avoids (ret a).
Proof. intros t0; discriminate. Qed.

Lemma Avoids_raise {A} (e' : exn) : e' <> e -> Avoids (@raise A e').
Proof. intros H t0 E; injection E; exact H. Qed.

Lemma Avoids_lift {A} (r : exn + A) : (forall e', r = inl e' -> e' <> e) -> Avoids (lift r).
Proof.
  intros H t0; unfold lift; simpl; destruct r as [e'|a]; [|discriminate].
  intros E; injection E; apply H; reflexivity.
Qed.

Lemma Avoids_bind {A B} (m : M A) (k : A -> M B) :
  Avoids m -> (forall a, Avoids (k a)) -> Avoids (bind m k).
Proof.
  intros Hm Hk t0; unfold bind.
  specialize (Hm t0); destruct (m t0) as [[e'|a] t1]; [|apply Hk].
  simpl in *; intros E; injection E as ->; apply Hm; reflexivity.
Qed.

Lemma Avoids_if {A} (b : bool) (m1 m2 : M A) :
  Avoids m1 -> Avoids m2 -> Avoids (if b then m1 else m2).
Proof. destruct b; auto. Qed.

Lemma Avoids_device_write (msg : string) : Avoids (device_write msg).
Proof. intros t0; discriminate. Qed.

Lemma Avoids_sleep (ms : Z) : Avoids (time_sleep ms).
Proof. intros t0; discriminate. Qed.

Lemma Avoids_ask inst (q : string) : Avoids (device_ask inst q).
Proof. intros t0; discriminate. Qed.
End Avoids.

(** The exceptions the building blocks raise are never a [RuntimeError]. *)
Definition is_runtime (e : exn) : bool :=
  match e with RuntimeError _ => true | _ => false end.

Lemma list_index0_not_runtime {A} (xs : list A) (e : exn) :
  list_index0 xs = inl e -> is_runtime e = false.
Proof. destruct xs; simpl; intros H; [injection H as <-|]; easy. Qed.

Lemma py_index0_not_runtime (s : string) (e : exn) :
  py_index0 s = inl e -> is_runtime e = false.
Proof. destruct s; simpl; intros H; [injection H as <-|]; easy. Qed.

Lemma dict_get_not_runtime (d : list (string * string)) (k : string) (e : exn) :
  dict_get d k = inl e -> is_runtime e = false.
Proof.
  induction d as [|[k' v] d IH]; simpl; [intros H; injection H as <-; reflexivity|].
  destruct (String.eqb k k'); [discriminate | exact IH].
Qed.

Lemma py_float_not_runtime (v : pyval) (e : exn) :
  py_float v = inl e -> is_runtime e = false.
Proof.
  destruct v as [| | |s]; simpl; try discriminate; [intros H; injection H as <-; reflexivity|].
  destruct (py_float_str s); [discriminate | intros H; injection H as <-; reflexivity].
Qed.

Lemma map_exn_not_runtime {A B} (f : A -> exn + B) (xs : list A) (e : exn) :
  (forall x e', f x = inl e' -> is_runtime e' = false) ->
  map_exn f xs = inl e -> is_runtime e = false.
Proof.
  intros Hf; induction xs as [|x xs IH]; simpl; [discriminate|].
  destruct (f x) eqn:Ex; [intros H; injection H as <-; exact (Hf _ _ Ex)|].
  destruct (map_exn f xs); [exact IH | discriminate].
Qed.

Lemma float_converter_not_runtime (s : string) (e : exn) :
  float_converter s = inl e -> is_runtime e = false.
Proof.
  unfold float_converter; destruct (py_float (PStr s)) eqn:E; [|discriminate].
  intros H; injection H as <-; exact (py_float_not_runtime _ _ E).
Qed.

Lemma not_runtime_neq (e : exn) (m : string) : is_runtime e = false -> e <> RuntimeError m.
Proof. intros H ->; discriminate. Qed.

(** Closes [Avoids (RuntimeError m) c] for [c] built from the methods'
    building blocks, their format strings and lookups. *)
Ltac solve_avoids :=
  repeat (first
    [ progress intros
    | match goal with
      | |- Avoids _ (BaseVisaDevice.write _ _) => unfold BaseVisaDevice.write
      | |- Avoids _ (query_ascii_values _ _ _) => unfold query_ascii_values
      | |- Avoids _ (device_write _) => apply Avoids_device_write
      | |- Avoids _ (time_sleep _) => apply Avoids_sleep
      | |- Avoids _ (device_ask _ _) => apply Avoids_ask
      | |- Avoids _ (ret _) => apply Avoids_ret
      | |- Avoids _ (raise _) => apply Avoids_raise; discriminate
      | |- Avoids _ (if _ then _ else _) => apply Avoids_if
      | |- Avoids _ (match ?x with Some _ => _ | None => _ end) => destruct x
      | |- Avoids _ (bind _ _) => apply Avoids_bind
      | |- Avoids _ (lift _) =>
          apply Avoids_lift; intros ?e' ?H;
          first
            [ rewrite ?format_scale_set, ?format_offset_set, ?format_scale_get,
                ?format_timescale, ?format_trigger_offset, ?format_source,
                ?format_sweep, ?format_coupling, ?format_slope, ?format_level,
                ?format_measure_voltage, ?format_measure_current,
                ?format_measure_power in H;
              first [ discriminate H | injection H as <-; discriminate ]
            | apply not_runtime_neq; revert H;
              first
                [ apply list_index0_not_runtime
                | apply py_index0_not_runtime
                | apply dict_get_not_runtime
                | apply py_float_not_runtime
                | apply map_exn_not_runtime; first
                    [ apply float_converter_not_runtime | intros ? ? ?; discriminate ] ] ]
      end ]).

(* ================================================================== *)
(** * Properties of the instrument classes *)

(** C1 (the error check of [write]).  With the instrument answering the
    error query with [1, "Undefined header"], [BaseVisaDevice.write]
    returns [0], the same value as for no error: [if error[0]] tests the
    first character of the reply, a one-character string, which is always
    true. *)
Theorem write_returns_ok_on_instrument_error (msg : string) (t0 : trace) :
  BaseVisaDevice.write undefined_header_instrument msg t0
  = (inr (PInt 0), t0 ++ [EWrite msg; ESleep 100; EQuery "SYST:ERR?" undefined_header]).
Proof. rewrite write_spec; reflexivity. Qed.

(** C5 (channel validation of turn_on and turn_off).  On both classes,
    turn_on and turn_off send their command for a channel in [1, 3]
    (DP832) or [1, 4] (DS1054Z) and raise [RuntimeError("Invalid
    channel!")] before any exchange otherwise; in particular channels 0
    and 4 on the DP832 and 5 on the DS1054Z. *)
Theorem turn_on_off_channel_validation inst :
  channel_validated 3 (RigolDP832.turn_on inst)
    (fun ch => ":OUTP CH" ++ z_to_string ch ++ ",ON")%string /\
  channel_validated 3 (RigolDP832.turn_off inst)
    (fun ch => ":OUTP CH" ++ z_to_string ch ++ ",OFF")%string /\
  channel_validated 4 (Rigol1054Z.turn_on inst)
    (fun ch => ":CHAN" ++ z_to_string ch ++ ":DISP ON")%string /\
  channel_validated 4 (Rigol1054Z.turn_off inst)
    (fun ch => ":CHAN" ++ z_to_string ch ++ ":DISP OFF")%string /\
  (forall t0,
     RigolDP832.turn_on inst 0 t0 = (inl (RuntimeError "Invalid channel!"), t0) /\
     RigolDP832.turn_off inst 0 t0 = (inl (RuntimeError "Invalid channel!"), t0) /\
     RigolDP832.turn_on inst 4 t0 = (inl (RuntimeError "Invalid channel!"), t0) /\
     RigolDP832.turn_off inst 4 t0 = (inl (RuntimeError "Invalid channel!"), t0) /\
     Rigol1054Z.turn_on inst 5 t0 = (inl (RuntimeError "Invalid channel!"), t0) /\
     Rigol1054Z.turn_off inst 5 t0 = (inl (RuntimeError "Invalid channel!"), t0)).
Proof.
  pose proof (dp_turn_on_validated inst) as H1.
  pose proof (dp_turn_off_validated inst) as H2.
  pose proof (ds_turn_on_validated inst) as H3.
  pose proof (ds_turn_off_validated inst) as H4.
  do 4 (split; [assumption|]); intros t0.
  repeat match goal with |- _ /\ _ => split end;
    [ apply (H1 0 t0) | apply (H2 0 t0) | apply (H1 4 t0) | apply (H2 4 t0)
    | apply (H3 5 t0) | apply (H4 5 t0) ]; lia.
Qed.

(** C9 (DP832 on/off commands).  turn_on(2) and turn_off(2) write
    [":OUTP CH2,ON"] and [":OUTP CH2,OFF"]: one prefix [":OUTP CH2,"]
    that holds the channel token "2", then "ON" or "OFF"; the two
    commands differ. *)
Theorem dp832_on_off_commands inst (t0 : trace) :
  let pre := ":OUTP CH2," in
  (exists r, snd (RigolDP832.turn_on inst 2 t0)
             = t0 ++ [EWrite (pre ++ "ON"); ESleep 100; EQuery "SYST:ERR?" r]) /\
  (exists r, snd (RigolDP832.turn_off inst 2 t0)
             = t0 ++ [EWrite (pre ++ "OFF"); ESleep 100; EQuery "SYST:ERR?" r]) /\
  (pre ++ "ON")%string <> (pre ++ "OFF")%string /\
  String.index 0 "2" pre = Some 8%nat.
Proof.
  cbv zeta; repeat split.
  - apply (proj1 (dp_turn_on_validated inst 2 t0)); lia.
  - apply (proj1 (dp_turn_off_validated inst 2 t0)); lia.
  - discriminate.
Qed.

(** C8 (delays).  [write] sleeps 0.1 s between the command and the error
    query; [reset] writes [*RST] (with that same check) and then sleeps a
    further 0.2 s before it returns, so a reset that returns has waited
    300 ms against the 100 ms of a plain write.  (An empty error reply
    makes [error[0]] raise, and then no settle delay follows.) *)
Theorem write_and_reset_delays inst (msg : string) (t0 : trace) :
  (exists r, snd (BaseVisaDevice.write inst msg t0)
             = t0 ++ [EWrite msg; ESleep 100; EQuery "SYST:ERR?" r]) /\
  (let r := inst (t0 ++ [EWrite "*RST"; ESleep 100]) "SYST:ERR?" in
   BaseVisaDevice.reset inst t0 =
   match r with
   | EmptyString =>
       (inl (IndexError "string index out of range"),
        t0 ++ [EWrite "*RST"; ESleep 100; EQuery "SYST:ERR?" r])
   | String _ _ =>
       (inr PNone, t0 ++ [EWrite "*RST"; ESleep 100; EQuery "SYST:ERR?" r; ESleep 200])
   end) /\
  (forall r r',
     total_sleep [EWrite msg; ESleep 100; EQuery "SYST:ERR?" r]
     < total_sleep [EWrite "*RST"; ESleep 100; EQuery "SYST:ERR?" r'; ESleep 200]).
Proof.
  split; [|split].
  - rewrite write_spec; eexists; reflexivity.
  - unfold BaseVisaDevice.reset, bind at 1; rewrite write_spec; cbv zeta.
    destruct (inst _ _); [reflexivity|].
    unfold bind, time_sleep, ret; simpl; rewrite <- app_assoc; reflexivity.
  - intros; simpl; lia.
Qed.

(** C7 ([get_samples] and its channel).  The channel argument is not
    used: two calls that differ only in it behave the same, and the only
    queries are the error query and [":WAV:DATA? CHAN1"]. *)
Theorem get_samples_ignores_channel inst (ch1 ch2 : Z) (t0 : trace) :
  Rigol1054Z.get_samples inst ch1 t0 = Rigol1054Z.get_samples inst ch2 t0 /\
  (forall q r, In (EQuery q r) (snd (Rigol1054Z.get_samples inst ch1 t0)) ->
     In (EQuery q r) t0 \/ q = "SYST:ERR?" \/ q = ":WAV:DATA? CHAN1").
Proof.
  split; [rewrite !get_samples_spec; reflexivity|].
  intros q r; rewrite get_samples_spec; cbv zeta.
  destruct (inst _ "SYST:ERR?"); simpl; rewrite ?in_app_iff; simpl;
    intros H; repeat destruct H as [H|H]; try discriminate; try contradiction;
    first [ now left | injection H as <- <-; now right; (left + right) ].
Qed.

(** C10 (placeholders in the decoded samples).  [conv_string] returns
    [None] exactly for a token that is empty or whitespace only, or whose
    text after header stripping does not parse as a float; [get_samples]
    returns the converted tokens of the data reply [d] it receives as
    they are, so the [None]s stay and there is one entry per token of
    [d]. *)
Theorem conv_string_none_placeholders :
  (forall toks, length (map conv_string toks) = length toks) /\
  (forall tok, conv_string tok = PNone <->
               py_strip tok = "" \/ py_float_str (strip_header tok) = None) /\
  (forall inst ch t0,
     let t1 := t0 ++ [EWrite ":WAV:FORM ASCII"; ESleep 100] in
     let r := inst t1 "SYST:ERR?" in
     let d := inst (t1 ++ [EQuery "SYST:ERR?" r; EWrite ":WAV:POIN:MODE RAW"]) ":WAV:DATA? CHAN1" in
     forall vs, fst (Rigol1054Z.get_samples inst ch t0) = inr vs ->
       vs = map conv_string (py_split "," d) /\ length vs = length (py_split "," d)) /\
  fst (Rigol1054Z.get_samples (scope_with_data "1.23,,bad, ") 1 [])
  = inr [PFloat (FNum false 123 (-2)); PNone; PNone; PNone].
Proof.
  split; [intros; apply length_map|]. split; [|split; [|reflexivity]].
  - intros tok; rewrite conv_string_spec.
    destruct (String.eqb_spec (py_strip tok) "") as [E|E].
    + split; [left; exact E | reflexivity].
    + destruct (py_float_str (strip_header tok)); split; intros H;
        try discriminate; auto; destruct H; congruence.
  - intros inst ch t0; cbv zeta; intros vs H.
    destruct (get_samples_reply inst ch t0) as [[_ E]|[_ E]]; rewrite E in H;
      [discriminate | injection H as <-].
    split; [reflexivity | apply length_map].
Qed.

(** C2, what the decode does.  One entry per token, in token order, and
    no exception from the decoding: a token gives the float it parses to
    (after header stripping) when it is not blank, and [None] otherwise.
    [get_samples] decodes the data reply [d] it receives this way; the
    only exception it raises comes from the error check of its first
    write, on an empty error reply [r]. *)
Theorem get_samples_one_entry_per_token :
  (forall toks, length (map conv_string toks) = length toks /\
     forall i tok, nth_error toks i = Some tok ->
       nth_error (map conv_string toks) i = Some (conv_string tok)) /\
  (forall tok f, conv_string tok = PFloat f <->
     py_strip tok <> "" /\ py_float_str (strip_header tok) = Some f) /\
  (forall tok, conv_string tok = PNone \/ exists f, conv_string tok = PFloat f) /\
  (forall inst ch t0,
     let t1 := t0 ++ [EWrite ":WAV:FORM ASCII"; ESleep 100] in
     let r := inst t1 "SYST:ERR?" in
     let d := inst (t1 ++ [EQuery "SYST:ERR?" r; EWrite ":WAV:POIN:MODE RAW"]) ":WAV:DATA? CHAN1" in
     (r = EmptyString /\
      fst (Rigol1054Z.get_samples inst ch t0) = inl (IndexError "string index out of range")) \/
     (r <> EmptyString /\
      fst (Rigol1054Z.get_samples inst ch t0) = inr (map conv_string (py_split "," d)))) /\
  fst (Rigol1054Z.get_samples (scope_with_data "#800000005,1.23,,bad") 1 [])
  = inr [PNone; PFloat (FNum false 123 (-2)); PNone; PNone].
Proof.
  split; [|split; [|split; [|split; [apply get_samples_reply | reflexivity]]]].
  - intros toks; split; [apply length_map|].
    intros i tok H; rewrite nth_error_map, H; reflexivity.
  - intros tok f; rewrite conv_string_spec.
    destruct (String.eqb_spec (py_strip tok) "") as [E|E];
      [split; [discriminate | intros [H _]; contradiction]|].
    destruct (py_float_str (strip_header tok)); split; intros H;
      try discriminate; [injection H as <-; auto | destruct H; congruence | destruct H; discriminate].
  - intros tok; rewrite conv_string_spec.
    destruct (String.eqb _ _); [now left|].
    destruct (py_float_str _); [right; eauto | now left].
Qed.

(** C3 (the level command of [trigger_edge_config]).  The level command
    is never sent: with valid coupling, slope and trigger type, and any
    channel and level, the call raises (after the four configuration
    writes, [AttributeError] on the ["5f"] attribute of the level) and its
    trace holds no [:TRIG:EDGE:LEV] write.  At the call
    [trigger_edge_config(1, level=0.5, slope="rising")] on an instrument
    without errors, the exchange is exactly the four checked writes. *)
Theorem trigger_edge_config_level_never_sent inst (ch : Z) (f : pyfloat) :
  Raises (Rigol1054Z.trigger_edge_config inst ch (PFloat f) "single" "DC" "rising") /\
  (forall t0, exists es,
     snd (Rigol1054Z.trigger_edge_config inst ch (PFloat f) "single" "DC" "rising" t0)
     = t0 ++ es /\ no_level_write es = true) /\
  Rigol1054Z.trigger_edge_config no_error 1 (PFloat (FNum false 5 (-1)))
    "single" "DC" "rising" []
  = (inl (AttributeError level_attribute),
     [EWrite ":TRIG:EDGE:SOUR CHAN1"; ESleep 100; EQuery "SYST:ERR?" no_error_reply;
      EWrite ":TRIG:EDGE:SWE SING"; ESleep 100; EQuery "SYST:ERR?" no_error_reply;
      EWrite ":TRIG:EDGE:COUP DC"; ESleep 100; EQuery "SYST:ERR?" no_error_reply;
      EWrite ":TRIG:EDGE:SLOP POS"; ESleep 100; EQuery "SYST:ERR?" no_error_reply]).
Proof.
  split; [|split; [|reflexivity]].
  - intros t0; rewrite trigger_edge_config_spec; revert t0.
    repeat (apply Raises_bind; intros ?a); apply Raises_raise.
  - intros t0; rewrite trigger_edge_config_spec.
    match goal with
    | |- context [snd (?m t0)] =>
        assert (H : Emits no_level_write m) by solve_emits no_level_write_app;
        exact (H t0)
    end.
Qed.

(** C4 (error query after every write).  Every write an operation makes
    through [BaseVisaDevice.write] is followed by the error query before
    the operation ends, and operations other than [get_samples] check all
    their writes.  [get_samples] does not: once its first write passes
    the error check, it writes [":WAV:POIN:MODE RAW"] directly on the
    transport, and no error query follows that write. *)
Theorem writes_checked_except_points_mode inst (o : op) (t0 : trace) :
  exists es, snd (run_op inst o t0) = t0 ++ es /\
    writes_checked (filter (fun e => negb (is_poin_write e)) es) = true /\
    ((forall ch, o <> DSGetSamples ch) -> writes_checked es = true) /\
    (forall ch, o = DSGetSamples ch ->
       inst (t0 ++ [EWrite ":WAV:FORM ASCII"; ESleep 100]) "SYST:ERR?" <> EmptyString ->
       In (EWrite ":WAV:POIN:MODE RAW") es /\ writes_checked es = false).
Proof.
  destruct (classic_get_samples o) as [[ch ->]|Hne].
  - simpl; unfold bind at 1; rewrite get_samples_spec; cbv zeta.
    destruct (inst _ "SYST:ERR?") as [|c s]; simpl; rewrite <- !app_assoc;
      eexists; (split; [reflexivity|]); split; try reflexivity;
      (split; [intros H; exfalso; apply (H ch); reflexivity|]);
      intros ch' _ Hr; [contradiction|].
    split; [simpl; auto 6 | reflexivity].
  - destruct (run_op_writes_checked inst o Hne t0) as [es [E C]].
    exists es; split; [exact E|]; split; [|split; [intros; exact C|]].
    + apply writes_checked_filter; [reflexivity | exact C].
    + intros ch Ho; exfalso; exact (Hne ch Ho).
Qed.

(** C6, what the code does.  Only turn_on and turn_off (on both classes)
    check the channel: no other operation of either class ever raises
    [RuntimeError("Invalid channel!")].  channel_scale_set,
    channel_offset_set, channel_scale_get, trigger_edge_config and the
    DP832's measure_voltage, measure_current and measure_power put any
    integer channel into the command they send; channel_offset_get and
    get_samples accept any channel and do not use it. *)
Theorem only_turn_on_off_validate_channel inst :
  channel_validated 3 (RigolDP832.turn_on inst)
    (fun ch => ":OUTP CH" ++ z_to_string ch ++ ",ON")%string /\
  channel_validated 3 (RigolDP832.turn_off inst)
    (fun ch => ":OUTP CH" ++ z_to_string ch ++ ",OFF")%string /\
  channel_validated 4 (Rigol1054Z.turn_on inst)
    (fun ch => ":CHAN" ++ z_to_string ch ++ ":DISP ON")%string /\
  channel_validated 4 (Rigol1054Z.turn_off inst)
    (fun ch => ":CHAN" ++ z_to_string ch ++ ":DISP OFF")%string /\
  (forall (o : op) (t0 : trace), is_turn_op o = false ->
     fst (run_op inst o t0) <> inl (RuntimeError "Invalid channel!")) /\
  (forall (ch : Z) (v : pyval) (f : pyfloat) (dc : bool) (t0 : trace),
     (exists r, snd (Rigol1054Z.channel_scale_set inst ch v t0)
        = t0 ++ [EWrite (":CHAN" ++ z_to_string ch ++ ":SCAL " ++ py_str v);
                 ESleep 100; EQuery "SYST:ERR?" r]) /\
     (exists r, snd (Rigol1054Z.channel_offset_set inst ch v t0)
        = t0 ++ [EWrite (":CHAN" ++ z_to_string ch ++ ":OFFS " ++ py_str v);
                 ESleep 100; EQuery "SYST:ERR?" r]) /\
     (exists r, snd (Rigol1054Z.channel_scale_get inst ch t0)
        = t0 ++ [EQuery (":CHAN" ++ z_to_string ch ++ ":SCAL?") r]) /\
     (exists r rest,
        snd (Rigol1054Z.trigger_edge_config inst ch (PFloat f) "single" "DC" "rising" t0)
        = t0 ++ EWrite (":TRIG:EDGE:SOUR CHAN" ++ z_to_string ch)
                :: ESleep 100 :: EQuery "SYST:ERR?" r :: rest) /\
     (exists r, snd (RigolDP832.measure_voltage inst ch dc t0)
        = t0 ++ [EQuery (":MEAS:VOLT" ++ (if dc then ":DC" else "") ++ "? CH"
                         ++ z_to_string ch) r]) /\
     (exists r, snd (RigolDP832.measure_current inst ch dc t0)
        = t0 ++ [EQuery (":MEAS:CURR" ++ (if dc then ":DC" else "") ++ "? CH"
                         ++ z_to_string ch) r]) /\
     (exists r, snd (RigolDP832.measure_power inst ch dc t0)
        = t0 ++ [EQuery (":MEAS:ALL" ++ (if dc then ":DC" else "") ++ "? CH"
                         ++ z_to_string ch) r]) /\
     Rigol1054Z.channel_offset_get inst ch t0 = Rigol1054Z.channel_offset_get inst 1 t0 /\
     Rigol1054Z.get_samples inst ch t0 = Rigol1054Z.get_samples inst 1 t0).
Proof.
  split; [apply dp_turn_on_validated|]. split; [apply dp_turn_off_validated|].
  split; [apply ds_turn_on_validated|]. split; [apply ds_turn_off_validated|].
  split.
  { intros o t0 Ho.
    assert (H : Avoids (RuntimeError "Invalid channel!") (run_op inst o)).
    { destruct o; try discriminate Ho; simpl;
        unfold BaseVisaDevice.reset,
          RigolDP832.measure_voltage, RigolDP832.measure_current, RigolDP832.measure_power,
          RigolDP832.measure, Rigol1054Z.channel_scale_set, Rigol1054Z.channel_scale_get,
          Rigol1054Z.channel_offset_set, Rigol1054Z.channel_offset_get,
          Rigol1054Z.timescale, Rigol1054Z.trigger_offset, Rigol1054Z.capture_start,
          Rigol1054Z.capture_stop, Rigol1054Z.trigger_edge_config, Rigol1054Z.get_samples,
          Rigol1054Z.samplerate_get; cbv zeta; solve_avoids. }
    exact (H t0). }
  intros ch v f dc t0; split; [|split; [|split; [|split; [|split; [|split; [|split; [|split]]]]]]].
  - unfold Rigol1054Z.channel_scale_set; rewrite format_scale_set, bind_lift_inr.
    apply write_then_ret.
  - unfold Rigol1054Z.channel_offset_set; rewrite format_offset_set, bind_lift_inr.
    apply write_then_ret.
  - unfold Rigol1054Z.channel_scale_get; rewrite format_scale_get, bind_lift_inr.
    eexists; apply query_then_index0.
  - rewrite trigger_edge_config_spec; unfold bind at 1; rewrite write_spec; cbv zeta.
    set (r := inst _ _); exists r; destruct r as [|c s]; [exists []; reflexivity|].
    cbv beta iota.
    match goal with
    | |- exists _, snd (?m ?t) = _ =>
        assert (H : Emits (fun _ => true) m) by solve_emits I;
        destruct (H t) as [rest [E _]]
    end.
    exists rest; rewrite E, <- app_assoc; reflexivity.
  - unfold RigolDP832.measure_voltage, RigolDP832.measure; cbv zeta.
    rewrite format_measure_voltage, bind_lift_inr.
    eexists; apply query_then_index0.
  - unfold RigolDP832.measure_current, RigolDP832.measure; cbv zeta.
    rewrite format_measure_current, bind_lift_inr.
    eexists; apply query_then_index0.
  - unfold RigolDP832.measure_power, RigolDP832.measure; cbv zeta.
    rewrite format_measure_power, bind_lift_inr.
    eexists; apply query_then_index0.
  - reflexivity.
  - reflexivity.
Qed.

(* ================================================================== *)
(** * Counterexamples *)

(** C2: the reply ["#800000005,1.23,,4.5ee6,bad"] decodes to five entries,
    four of them [None], not to the two floats 1.23 and 4.5e6: the
    10-character token is all header, and ["4.5ee6"] stays unparseable
    because the result of [replace] is discarded. *)
Lemma decode_example_keeps_placeholders :
  fst (Rigol1054Z.get_samples (scope_with_data "#800000005,1.23,,4.5ee6,bad") 1 [])
  = inr [PNone; PFloat (FNum false 123 (-2)); PNone; PNone; PNone] /\
  ~ (exists x y,
       fst (Rigol1054Z.get_samples (scope_with_data "#800000005,1.23,,4.5ee6,bad") 1 [])
       = inr [PFloat x; PFloat y]).
Proof.
  split; [reflexivity|].
  intros [x [y H]]; vm_compute in H; discriminate.
Qed.

(** C6: channel 9, outside [1, 4], reaches the transport through
    channel_scale_set. *)
Lemma scale_set_sends_invalid_channel :
  ~ (1 <= 9 <= 4) /\
  snd (Rigol1054Z.channel_scale_set no_error 9 (PInt 2) [])
  = [EWrite ":CHAN9:SCAL 2"; ESleep 100; EQuery "SYST:ERR?" no_error_reply].
Proof. split; [lia | reflexivity]. Qed.

(* ================================================================== *)
(** * Further properties of the module *)

Lemma open_first_filter (family : string) (p : string -> bool) (l : list string) :
  open_first family (filter p l) = find (fun d => p d && py_in family d) l.
Proof.
  induction l as [|d l IH]; simpl; [reflexivity|].
  destruct (p d); simpl; [destruct (py_in family d); [reflexivity | exact IH] | exact IH].
Qed.

(** Construction.  A constructor opens the first listed resource whose
    name contains both "USB" and the family token ("DP8" or "DS1Z"), in
    listing order; with none it raises [RuntimeError] with the family's
    message; when pyvisa fails to list the resources the missing
    [usb_devices] attribute raises [AttributeError] instead. *)
Theorem init_opens_first_matching_resource (listing : list string) :
  dp832_init (Some listing)
  = match find (fun d => py_in "USB" d && py_in "DP8" d) listing with
    | Some d => inr d
    | None => inl (RuntimeError "Failed to find a DP832!")
    end /\
  ds1054z_init (Some listing)
  = match find (fun d => py_in "USB" d && py_in "DS1Z" d) listing with
    | Some d => inr d
    | None => inl (RuntimeError "Failed to find a DS1054Z!")
    end /\
  dp832_init None = inl (AttributeError "usb_devices") /\
  ds1054z_init None = inl (AttributeError "usb_devices").
Proof.
  unfold dp832_init, ds1054z_init, family_init, base_init.
  rewrite !open_first_filter; repeat split.
Qed.

(** [trigger_edge_config] checks its arguments before any exchange, in
    the order of the source: a coupling that is not "DC" or "AC" after
    [strip().upper()] raises [RuntimeError]; then a slope that is not
    "falling" or "rising" after [strip().lower()] raises [KeyError]; then
    a trigger type that is not "single" raises [KeyError]. *)
Theorem trigger_edge_config_argument_checks inst (ch : Z) (level : pyval)
    (trig_type coupling slope : string) (t0 : trace) :
  let cp := py_upper (py_strip coupling) in
  let sl := py_lower (py_strip slope) in
  let tt := py_lower (py_strip trig_type) in
  let run := Rigol1054Z.trigger_edge_config inst ch level trig_type coupling slope t0 in
  (cp <> Some "DC" -> cp <> Some "AC" -> run = (inl (RuntimeError "Invalid coupling type!"), t0)) /\
  ((cp = Some "DC" \/ cp = Some "AC") -> sl <> "falling" -> sl <> "rising" ->
     run = (inl (KeyError sl), t0)) /\
  ((cp = Some "DC" \/ cp = Some "AC") -> (sl = "falling" \/ sl = "rising") -> tt <> "single" ->
     run = (inl (KeyError tt), t0)).
Proof.
  cbv zeta; unfold Rigol1054Z.trigger_edge_config; cbv zeta.
  split; [|split].
  - intros H1 H2.
    destruct (py_upper (py_strip coupling)) as [c|]; [|reflexivity].
    destruct (String.eqb_spec c "DC"); [congruence|].
    destruct (String.eqb_spec c "AC"); [congruence|].
    reflexivity.
  - intros Hc H1 H2.
    destruct Hc as [-> | ->]; simpl;
      destruct (String.eqb_spec (py_lower (py_strip slope)) "falling"); [contradiction| |contradiction|];
      destruct (String.eqb_spec (py_lower (py_strip slope)) "rising"); solve [contradiction | reflexivity].
  - intros Hc Hs H1.
    destruct Hc as [-> | ->]; simpl;
      destruct Hs as [-> | ->]; simpl;
      destruct (String.eqb_spec (py_lower (py_strip trig_type)) "single");
      solve [contradiction | reflexivity].
Qed.




(** [m] is one query [cmd] to the instrument and nothing else. *)
Definition only_queries inst (m : M pyval) (cmd : string) : Prop :=
  forall t0, snd (m t0) = t0 ++ [EQuery cmd (inst t0 cmd)].

(** The query methods write nothing: each is exactly one query, with no
    error check; [channel_offset_get] reads the waveform Y origin
    [:WAV:YOR?] whatever its channel. *)
Theorem query_methods_write_nothing inst (ch : Z) (dc : bool) :
  let dcs := if dc then ":DC" else "" in
  only_queries inst (RigolDP832.measure_voltage inst ch dc)
    (":MEAS:VOLT" ++ dcs ++ "? CH" ++ z_to_string ch) /\
  only_queries inst (RigolDP832.measure_current inst ch dc)
    (":MEAS:CURR" ++ dcs ++ "? CH" ++ z_to_string ch) /\
  only_queries inst (RigolDP832.measure_power inst ch dc)
    (":MEAS:ALL" ++ dcs ++ "? CH" ++ z_to_string ch) /\
  only_queries inst (Rigol1054Z.channel_scale_get inst ch)
    (":CHAN" ++ z_to_string ch ++ ":SCAL?") /\
  only_queries inst (Rigol1054Z.channel_offset_get inst ch) ":WAV:YOR?" /\
  only_queries inst (Rigol1054Z.samplerate_get inst) ":ACQ:SAMP?".
Proof.
  cbv zeta; unfold only_queries; repeat split; intros t0.
  - unfold RigolDP832.measure_voltage, RigolDP832.measure; cbv zeta.
    rewrite format_measure_voltage, bind_lift_inr; apply query_then_index0.
  - unfold RigolDP832.measure_current, RigolDP832.measure; cbv zeta.
    rewrite format_measure_current, bind_lift_inr; apply query_then_index0.
  - unfold RigolDP832.measure_power, RigolDP832.measure; cbv zeta.
    rewrite format_measure_power, bind_lift_inr; apply query_then_index0.
  - unfold Rigol1054Z.channel_scale_get; rewrite format_scale_get, bind_lift_inr.
    apply query_then_index0.
  - apply query_then_index0.
  - apply query_then_index0.
Qed.

(** ** The value of a scalar query *)

Lemma split_go_cons (sep : ascii) (cur l : list ascii) :
  exists tok toks, split_go sep cur l = tok :: toks.
Proof.
  revert cur; induction l as [|c l IH]; intros cur; simpl; [eauto|].
  destruct (Ascii.eqb c sep); eauto.
Qed.

Lemma map_exn_float_ok (toks : list string) :
  Forall (fun tok => py_float_str tok <> None) toks ->
  exists vs, map_exn float_converter toks = inr vs /\
    forall tok toks', toks = tok :: toks' ->
      exists f, py_float_str tok = Some f /\ hd_error vs = Some (PFloat f).
Proof.
  induction 1 as [|tok toks Htok _ [vs [E _]]]; [exists []; split; [reflexivity | discriminate]|].
  destruct (py_float_str tok) as [f|] eqn:Ef; [|contradiction].
  exists (PFloat f :: vs); cbn [map_exn]; rewrite E.
  unfold float_converter at 1; simpl; rewrite Ef.
  split; [reflexivity|]. intros tok' toks' H; injection H as <- <-; eauto.
Qed.

Lemma map_exn_float_fail (toks : list string) :
  Exists (fun tok => py_float_str tok = None) toks ->
  map_exn float_converter toks = inl (ValueError "could not convert string to float").
Proof.
  induction 1 as [tok toks Htok | tok toks _ IH]; cbn [map_exn];
    unfold float_converter at 1; simpl.
  - rewrite Htok; reflexivity.
  - rewrite IH; destruct (py_float_str tok); reflexivity.
Qed.

(** The scalar query [cmd] answered by [vals[0]]: the float of the
    first comma-separated token when every token converts, and
    [ValueError] as soon as any token, even a later one, does not. *)
Definition first_value_or_error inst (m : M pyval) (cmd : string) : Prop :=
  forall t0,
    let toks := py_split "," (inst t0 cmd) in
    (Forall (fun tok => py_float_str tok <> None) toks ->
       exists f, py_float_str (hd "" toks) = Some f /\ fst (m t0) = inr (PFloat f)) /\
    (Exists (fun tok => py_float_str tok = None) toks ->
       fst (m t0) = inl (ValueError "could not convert string to float")).

Lemma query_index0_value inst (cmd : string) :
  first_value_or_error inst
    (vals <- query_ascii_values inst cmd float_converter ;; lift (list_index0 vals)) cmd.
Proof.
  intros t0; cbv zeta; split; intros H;
    unfold bind, query_ascii_values, device_ask, lift; simpl.
  - destruct (map_exn_float_ok _ H) as [vs [E Hhd]]; rewrite E.
    destruct (split_go_cons "," [] (list_ascii_of_string (inst t0 cmd))) as [tok [toks Es]].
    unfold py_split in *; rewrite Es in Hhd |- *.
    destruct (Hhd tok toks eq_refl) as [f [Ef Hv]].
    destruct vs as [|v vs]; [discriminate|]; injection Hv as ->.
    exists f; split; [exact Ef | reflexivity].
  - rewrite (map_exn_float_fail _ H); reflexivity.
Qed.

(** The power supply's measurements, the scope's scale getter and the
    sample-rate getter return the first value of the reply; so
    [measure_power], whose [:MEAS:ALL?] reply lists voltage, current and
    power, returns the first of the three.  A reply with any token that
    does not convert raises [ValueError]. *)
Theorem scalar_queries_return_first_value inst (ch : Z) (dc : bool) :
  let dcs := if dc then ":DC" else "" in
  first_value_or_error inst (RigolDP832.measure_voltage inst ch dc)
    (":MEAS:VOLT" ++ dcs ++ "? CH" ++ z_to_string ch) /\
  first_value_or_error inst (RigolDP832.measure_current inst ch dc)
    (":MEAS:CURR" ++ dcs ++ "? CH" ++ z_to_string ch) /\
  first_value_or_error inst (RigolDP832.measure_power inst ch dc)
    (":MEAS:ALL" ++ dcs ++ "? CH" ++ z_to_string ch) /\
  first_value_or_error inst (Rigol1054Z.channel_scale_get inst ch)
    (":CHAN" ++ z_to_string ch ++ ":SCAL?") /\
  first_value_or_error inst (Rigol1054Z.channel_offset_get inst ch) ":WAV:YOR?" /\
  first_value_or_error inst (Rigol1054Z.samplerate_get inst) ":ACQ:SAMP?".
Proof.
  cbv zeta; refine (conj _ (conj _ (conj _ (conj _ (conj _ _))))).
  - unfold RigolDP832.measure_voltage, RigolDP832.measure; cbv zeta.
    rewrite format_measure_voltage, bind_lift_inr; apply query_index0_value.
  - unfold RigolDP832.measure_current, RigolDP832.measure; cbv zeta.
    rewrite format_measure_current, bind_lift_inr; apply query_index0_value.
  - unfold RigolDP832.measure_power, RigolDP832.measure; cbv zeta.
    rewrite format_measure_power, bind_lift_inr; apply query_index0_value.
  - unfold Rigol1054Z.channel_scale_get; rewrite format_scale_get, bind_lift_inr.
    apply query_index0_value.
  - apply query_index0_value.
  - apply query_index0_value.
Qed.

(** ** Setters *)

(** [m] sends [msg] through the checked [write] and returns [None]:
    the instrument's error report is read and dropped, and only an
    empty report raises, at [error[0]]. *)
Definition setter_drops_error inst (m : M pyval) (msg : string) : Prop :=
  forall t0,
    let r := inst (t0 ++ [EWrite msg; ESleep 100]) "SYST:ERR?" in
    m t0 = (match r with
            | EmptyString => inl (IndexError "string index out of range")
            | String _ _ => inr PNone
            end, t0 ++ [EWrite msg; ESleep 100; EQuery "SYST:ERR?" r]).

Lemma write_ret_none inst (msg : string) :
  setter_drops_error inst (BaseVisaDevice.write inst msg ;;; ret PNone) msg.
Proof.
  intros t0; cbv zeta; unfold bind at 1; rewrite write_spec; cbv zeta.
  destruct (inst (t0 ++ [EWrite msg; ESleep 100]) "SYST:ERR?"); reflexivity.
Qed.

(** The scope's setters make one checked write each and return [None]
    whatever error the instrument reports; the scale and offset setters
    send any channel number. *)
Theorem setters_return_none inst (ch : Z) (v : pyval) :
  setter_drops_error inst (Rigol1054Z.channel_scale_set inst ch v)
    (":CHAN" ++ z_to_string ch ++ ":SCAL " ++ py_str v) /\
  setter_drops_error inst (Rigol1054Z.channel_offset_set inst ch v)
    (":CHAN" ++ z_to_string ch ++ ":OFFS " ++ py_str v) /\
  setter_drops_error inst (Rigol1054Z.timescale inst v) (":TIM:SCAL " ++ py_str v) /\
  setter_drops_error inst (Rigol1054Z.trigger_offset inst v) (":TIM:OFFS " ++ py_str v) /\
  setter_drops_error inst (Rigol1054Z.capture_start inst) ":START" /\
  setter_drops_error inst (Rigol1054Z.capture_stop inst) ":STOP".
Proof.
  refine (conj _ (conj _ (conj _ (conj _ (conj _ _))))).
  - unfold Rigol1054Z.channel_scale_set; rewrite format_scale_set, bind_lift_inr.
    apply write_ret_none.
  - unfold Rigol1054Z.channel_offset_set; rewrite format_offset_set, bind_lift_inr.
    apply write_ret_none.
  - unfold Rigol1054Z.timescale; rewrite format_timescale, bind_lift_inr.
    apply write_ret_none.
  - unfold Rigol1054Z.trigger_offset; rewrite format_trigger_offset, bind_lift_inr.
    apply write_ret_none.
  - apply write_ret_none.
  - apply write_ret_none.
Qed.

(** Within the channel range, [1, 3] on the DP832 and [1, 4] on the
    DS1054Z, the on/off methods of both classes are setters too: one
    checked write, [None] whatever error is reported. *)
Theorem turn_on_off_valid_channel_return_none inst (ch cs : Z)
    (Hch : 1 <= ch <= 3) (Hcs : 1 <= cs <= 4) :
  setter_drops_error inst (RigolDP832.turn_on inst ch) (":OUTP CH" ++ z_to_string ch ++ ",ON") /\
  setter_drops_error inst (RigolDP832.turn_off inst ch) (":OUTP CH" ++ z_to_string ch ++ ",OFF") /\
  setter_drops_error inst (Rigol1054Z.turn_on inst cs) (":CHAN" ++ z_to_string cs ++ ":DISP ON") /\
  setter_drops_error inst (Rigol1054Z.turn_off inst cs) (":CHAN" ++ z_to_string cs ++ ":DISP OFF").
Proof.
  assert (E3 : (ch <=? 0) || (ch >? 3) = false)
    by (apply orb_false_iff; split; [apply Z.leb_gt | rewrite Z.gtb_ltb; apply Z.ltb_ge]; lia).
  assert (E4 : (cs <=? 0) || (cs >? 4) = false)
    by (apply orb_false_iff; split; [apply Z.leb_gt | rewrite Z.gtb_ltb; apply Z.ltb_ge]; lia).
  refine (conj _ (conj _ (conj _ _))).
  - unfold RigolDP832.turn_on; rewrite E3, format_dp_on, bind_lift_inr; apply write_ret_none.
  - unfold RigolDP832.turn_off; rewrite E3, format_dp_off, bind_lift_inr; apply write_ret_none.
  - unfold Rigol1054Z.turn_on; rewrite E4, format_ds_on, bind_lift_inr; apply write_ret_none.
  - unfold Rigol1054Z.turn_off; rewrite E4, format_ds_off, bind_lift_inr; apply write_ret_none.
Qed.

Lemma turn_on_off_valid_channel_return_none_witness :
  (1 <= 3 <= 3) /\ (1 <= 4 <= 4) /\
  setter_drops_error no_error (RigolDP832.turn_on no_error 3) ":OUTP CH3,ON" /\
  setter_drops_error no_error (RigolDP832.turn_off no_error 3) ":OUTP CH3,OFF" /\
  setter_drops_error no_error (Rigol1054Z.turn_on no_error 4) ":CHAN4:DISP ON" /\
  setter_drops_error no_error (Rigol1054Z.turn_off no_error 4) ":CHAN4:DISP OFF".
Proof.
  split; [lia|]. split; [lia|].
  exact (turn_on_off_valid_channel_return_none no_error 3 4 ltac:(lia) ltac:(lia)).
Defined.

(** ** Decoding one sample *)

Lemma list_ascii_of_string_app (s1 s2 : string) :
  list_ascii_of_string (s1 ++ s2) = list_ascii_of_string s1 ++ list_ascii_of_string s2.
Proof. induction s1 as [|c s1 IH]; simpl; [reflexivity | now rewrite IH]. Qed.

Lemma list_ascii_of_string_length (s : string) :
  length (list_ascii_of_string s) = String.length s.
Proof. induction s as [|c s IH]; simpl; [reflexivity | now rewrite IH]. Qed.

Lemma drop_space_snoc (sp : ascii -> bool) (c : ascii) (l : list ascii) :
  sp c = false -> exists m, drop_space sp (l ++ [c]) = m ++ [c].
Proof.
  intros Hc; induction l as [|x l IH]; simpl.
  - rewrite Hc; exists []; reflexivity.
  - destruct (sp x); [exact IH | exists (x :: l); reflexivity].
Qed.

Lemma drop_space_head (sp : ascii -> bool) (l : list ascii) (c : ascii) (m : list ascii) :
  drop_space sp l = c :: m -> sp c = false.
Proof.
  induction l as [|x l IH]; simpl; [discriminate|].
  destruct (sp x) eqn:Ex; [exact IH | intros H; injection H as <- _; exact Ex].
Qed.

(** A string whose first character past the leading blanks is [c]
    strips to a string that starts with [c]. *)
Lemma strip_by_head (sp : ascii -> bool) (l : list ascii) (c : ascii) (m : list ascii) :
  drop_space sp l = c :: m ->
  exists m', list_ascii_of_string (strip_by sp (string_of_list_ascii l)) = c :: m'.
Proof.
  intros H; pose proof (drop_space_head sp l c m H) as Hc.
  unfold strip_by; rewrite !list_ascii_of_string_of_list_ascii, H; simpl.
  destruct (drop_space_snoc sp c (rev m) Hc) as [m' E]; rewrite E, rev_app_distr.
  exists (rev m'); reflexivity.
Qed.

(** The header of a waveform token is ["#"] and ten more characters:
    [conv_string] decodes what follows them, as [float] does, and
    gives [None] where [float] would raise. *)
Theorem conv_string_strips_header (h p : string) (Hh : String.length h = 10%nat) :
  conv_string (String "#" (h ++ p)) =
  match py_float_str p with Some f => PFloat f | None => PNone end.
Proof.
  rewrite conv_string_spec.
  destruct (strip_by_head is_space ("#"%char :: list_ascii_of_string (h ++ p)) "#"
             (list_ascii_of_string (h ++ p)) eq_refl) as [m E].
  simpl string_of_list_ascii in E; rewrite string_of_list_ascii_of_string in E.
  fold (py_strip (String "#" (h ++ p))) in E.
  destruct (py_strip (String "#" (h ++ p))) eqn:Es; [discriminate E|]; simpl String.eqb.
  unfold strip_header, py_slice_from; simpl list_ascii_of_string.
  rewrite list_ascii_of_string_app, skipn_cons.
  rewrite skipn_app, skipn_all2 by (rewrite list_ascii_of_string_length; lia).
  rewrite list_ascii_of_string_length, Hh, Nat.sub_diag; simpl.
  rewrite string_of_list_ascii_of_string; reflexivity.
Qed.

Lemma conv_string_strips_header_witness :
  String.length "9000001200" = 10%nat /\
  conv_string (String "#" ("9000001200" ++ "-1.2e-01")) =
  match py_float_str "-1.2e-01" with Some f => PFloat f | None => PNone end.
Proof.
  split; [reflexivity|].
  apply (conv_string_strips_header "9000001200" "-1.2e-01"); reflexivity.
Defined.

(** The first character of what [float()] parses cannot start a number:
    ["#"], or a separator U+001C to U+001F that [str.strip()] removes but
    [float()] does not. *)
Definition blocks_float (c : ascii) : bool :=
  Ascii.eqb c "#"%char || (is_space c && negb (is_float_space c)).

Lemma py_float_str_blocked (l : list ascii) (c : ascii) (m : list ascii) :
  drop_space is_float_space l = c :: m -> blocks_float c = true ->
  py_float_str (string_of_list_ascii l) = None.
Proof.
  intros H Hb; unfold py_float_str, float_strip.
  destruct (strip_by_head is_float_space l c m H) as [m' ->].
  clear H; destruct c as [[] [] [] [] [] [] [] []];
    solve [discriminate Hb | reflexivity].
Qed.

Lemma blanks_then_hash (ws l : list ascii) :
  forallb is_space ws = true ->
  exists c m, drop_space is_float_space (ws ++ "#"%char :: l) = c :: m /\ blocks_float c = true.
Proof.
  induction ws as [|w ws IH]; simpl; [intros _; eauto|].
  intros H; apply andb_prop in H as [Hw Hws].
  destruct (is_float_space w) eqn:Ew; [exact (IH Hws)|].
  exists w, (ws ++ "#"%char :: l); split; [reflexivity|].
  unfold blocks_float; rewrite Hw, Ew, orb_true_r; reflexivity.
Qed.

(** The header is recognised only in the first column: a token that
    begins with any whitespace before ["#"] keeps its header, and [float]
    rejects it, so it decodes as [None]. *)
Theorem conv_string_blank_before_header (ws : list ascii) (s : string)
    (Hne : ws <> []) (Hws : forallb is_space ws = true) :
  conv_string (string_of_list_ascii (ws ++ "#"%char :: list_ascii_of_string s)) = PNone.
Proof.
  rewrite conv_string_spec.
  destruct (String.eqb _ _); [reflexivity|].
  destruct ws as [|w ws']; [contradiction|].
  assert (Hs : forall t, strip_header (String w t) = String w t).
  { simpl in Hws; apply andb_prop in Hws as [Hw _].
    intros t; unfold strip_header; destruct w as [[] [] [] [] [] [] [] []];
      solve [reflexivity | discriminate Hw]. }
  simpl string_of_list_ascii; rewrite Hs.
  change (String w (string_of_list_ascii (ws' ++ "#"%char :: list_ascii_of_string s)))
    with (string_of_list_ascii ((w :: ws') ++ "#"%char :: list_ascii_of_string s)).
  destruct (blanks_then_hash (w :: ws') (list_ascii_of_string s) Hws) as [c [m [E Hb]]].
  rewrite (py_float_str_blocked _ c m E Hb); reflexivity.
Qed.

Lemma conv_string_blank_before_header_witness :
  [" "%char; "028"%char] <> [] /\ forallb is_space [" "%char; "028"%char] = true /\
  conv_string (string_of_list_ascii ([" "%char; "028"%char] ++ "#"%char ::
                 list_ascii_of_string "9000001200-1.2e-01")) = PNone.
Proof.
  split; [discriminate|]. split; [reflexivity|].
  apply conv_string_blank_before_header; [discriminate | reflexivity].
Defined.

(** ** How many samples [get_samples] returns *)

Lemma split_go_length (sep : ascii) (cur l : list ascii) :
  length (split_go sep cur l) = S (length (filter (fun c => Ascii.eqb c sep) l)).
Proof.
  revert cur; induction l as [|c l IH]; intros cur; simpl; [reflexivity|].
  destruct (Ascii.eqb c sep); simpl; rewrite IH; reflexivity.
Qed.

(** When the error check passes, [get_samples] returns one entry more
    than the data reply has commas, whatever the entries decode to: an
    empty reply gives one entry, never an empty list. *)
Theorem get_samples_entry_count inst (ch : Z) (t0 : trace) :
  let t1 := t0 ++ [EWrite ":WAV:FORM ASCII"; ESleep 100] in
  let r := inst t1 "SYST:ERR?" in
  let d := inst (t1 ++ [EQuery "SYST:ERR?" r; EWrite ":WAV:POIN:MODE RAW"]) ":WAV:DATA? CHAN1" in
  (r = EmptyString /\ fst (Rigol1054Z.get_samples inst ch t0) = inl (IndexError "string index out of range")) \/
  (r <> EmptyString /\ exists vs, fst (Rigol1054Z.get_samples inst ch t0) = inr vs /\
     length vs = S (length (filter (fun c => Ascii.eqb c ",") (list_ascii_of_string d)))).
Proof.
  cbv zeta; rewrite get_samples_spec; cbv zeta.
  destruct (inst _ "SYST:ERR?") as [|c s]; [left; split; reflexivity | right].
  split; [discriminate|].
  eexists; split; [reflexivity|].
  rewrite length_map; apply split_go_length.
Qed.
